(** * A shallow embedding of [indexes.py]

    The module is a thin facade over the App Engine search service: a
    metaclass collects the [Field]-valued attributes of a document class into
    a schema, [DocumentModel] runs attribute reads and writes through the
    field conversions, and [Index] proxies [put] / [delete] / [get_range] to
    the remote index and pages through it in [purge].

    Python values are an inductive type, exceptions are a result type, the
    remote index is a state threaded through every call together with the
    log of the calls made to it, and dictionaries are finite maps. *)

From Stdlib Require Import ZArith NArith Ascii String.
From stdpp Require Import gmap strings list fin_maps pretty.

Set Warnings "-register-all".
Open Scope string_scope.
Open Scope list_scope.

(** ** Python values and exceptions *)

(** Code points of a [unicode] object; a Python 2 [str] is a byte string,
    which is what [string] is. *)
Abbreviation ustring := (list N).

Inductive Value : Type :=
  | VNone
  | VBool (b : bool)
  | VInt (z : Z)
  | VStr (s : string)
  | VUnicode (u : ustring)
  | VOptions                              (* the [Options] object of the class at hand *)
  | VRangeDocument (d : gmap string Value). (* a [RangeDocument] and its [__dict__] *)

Inductive exn : Type :=
  | AssertionError (msg : string)
  | ValueError (msg : string)
  | TypeError
  | AttributeError (attr : string)
  | KeyError
  | UnicodeDecodeError
  | RemoteError (code : N).

Inductive result (A : Type) : Type :=
  | Ok (a : A)
  | Raise (e : exn).
Arguments Ok {A} a.
Arguments Raise {A} e.

#[global] Instance result_ret : MRet result := λ A a, Ok a.
#[global] Instance result_bind : MBind result := λ A B k m,
  match m with
  | Ok a => k a
  | Raise e => Raise e
  end.
#[global] Instance result_fmap : FMap result := λ A B f m,
  match m with
  | Ok a => Ok (f a)
  | Raise e => Raise e
  end.

(** [for x in xs: acc = step(acc, x)] where the body may raise. *)
Fixpoint foldM {A B : Type} (step : B → A → result B) (acc : B) (xs : list A)
  : result B :=
  match xs with
  | [] => Ok acc
  | x :: xs' => acc' ← step acc x; foldM step acc' xs'
  end.

(** A list comprehension whose element expression may raise. *)
Fixpoint mapM_result {A B : Type} (f : A → result B) (xs : list A) : result (list B) :=
  match xs with
  | [] => Ok []
  | x :: xs' => y ← f x; ys ← mapM_result f xs'; Ok (y :: ys)
  end.

(** ** Builtins used by the module *)

Definition codes (s : string) : ustring := N_of_ascii <$> list_ascii_of_string s.

Definition is_ascii (s : string) : bool :=
  forallb (λ c, (N_of_ascii c <? 128)%N) (list_ascii_of_string s).

(** Truth value testing: [None], [False], zero and empty strings are false,
    every other object is true. *)
Definition truthy (v : Value) : bool :=
  match v with
  | VNone => false
  | VBool b => b
  | VInt z => negb (z =? 0)%Z
  | VStr s => negb (String.eqb s "")
  | VUnicode u => match u with [] => false | _ => true end
  | VOptions | VRangeDocument _ => true
  end.

(** [needle in s] on byte strings. *)
Fixpoint substringb (needle s : string) : bool :=
  String.prefix needle s ||
  match s with
  | EmptyString => false
  | String _ s' => substringb needle s'
  end.

Fixpoint uprefix (p u : ustring) : bool :=
  match p, u with
  | [], _ => true
  | c :: p', d :: u' => (c =? d)%N && uprefix p' u'
  | _ :: _, [] => false
  end.

Fixpoint usubstringb (needle u : ustring) : bool :=
  uprefix needle u ||
  match u with
  | [] => false
  | _ :: u' => usubstringb needle u'
  end.

(** [needle in hay] for a byte-string needle: substring search on strings
    (the needle is decoded as ASCII against a unicode haystack), a
    [TypeError] on every other value of the model. *)
Definition py_in (needle : string) (hay : Value) : result bool :=
  match hay with
  | VStr s => Ok (substringb needle s)
  | VUnicode u =>
      if is_ascii needle then Ok (usubstringb (codes needle) u)
      else Raise UnicodeDecodeError
  | _ => Raise TypeError
  end.

(** Attribute read on a plain value: only a [RangeDocument] carries
    attributes of its own (builtin methods are not values of the model). *)
Definition py_getattr (v : Value) (attr : string) : result Value :=
  match v with
  | VRangeDocument d =>
      match d !! attr with
      | Some x => Ok x
      | None => Raise (AttributeError attr)
      end
  | _ => Raise (AttributeError attr)
  end.

(** [name.startswith(p)]. *)
Definition py_startswith (v : Value) (p : string) : result bool :=
  match v with
  | VStr s => Ok (String.prefix p s)
  | VUnicode u =>
      if is_ascii p then Ok (uprefix (codes p) u) else Raise UnicodeDecodeError
  | VRangeDocument d =>
      (* an attribute of that name would be a plain value, not callable *)
      _ ← py_getattr v "startswith"; Raise TypeError
  | _ => Raise (AttributeError "startswith")
  end.

(** UTF-8 encoding of one code point. *)
Definition utf8_encode_char (c : N) : list ascii :=
  let cont (x : N) := ascii_of_N (N.lor 128 (N.land x 63)) in
  if (c <? 128)%N then [ascii_of_N c]
  else if (c <? 2048)%N then
    [ascii_of_N (N.lor 192 (N.shiftr c 6)); cont c]
  else if (c <? 65536)%N then
    [ascii_of_N (N.lor 224 (N.shiftr c 12)); cont (N.shiftr c 6); cont c]
  else
    [ascii_of_N (N.lor 240 (N.shiftr c 18)); cont (N.shiftr c 12);
     cont (N.shiftr c 6); cont c].

(** [u.encode('utf-8')]. *)
Definition utf8_encode (u : ustring) : string :=
  string_of_list_ascii (u ≫= utf8_encode_char).

(** ** Fields and the remote wire format

    [fields.py] and the search API are not part of the module: a field is
    its class tag and its two conversions, which may raise. *)

Inductive FieldClass : Type :=
  | TextField | IntegerField | FloatField | DateField | BooleanField
  | OtherField.   (* [Field] itself or any other subclass *)

Record Field : Type := mkField {
  field_class : FieldClass;
  to_python : Value → result Value;
  to_search_value : Value → result Value
}.

Inductive ApiFieldClass : Type :=
  | ApiTextField | ApiNumberField | ApiDateField | ApiAtomField.

Record WireField : Type := mkWireField {
  wf_class : ApiFieldClass;
  wf_name : string;
  wf_value : Value
}.

(** [search_api.Document]. *)
Record WireDoc : Type := mkWireDoc {
  wd_doc_id : Value;
  wd_fields : list WireField
}.

(** ** Classes built by [MetaClass] *)

(** An entry of the class body: [isinstance(field, Field)] or not. *)
Inductive ClassAttr : Type :=
  | AttrField (f : Field)
  | AttrValue (v : Value).

(** A document class as the metaclass leaves it: the namespace instances
    fall back to (fields removed, [_meta] set), the schema
    [_meta.fields], and the [add_to_class] calls made while binding. *)
Record DocClass : Type := mkDocClass {
  cls_name : string;
  cls_namespace : gmap string Value;
  cls_fields : gmap string Field;
  cls_bound : list (string * Field)
}.

(** A base class: [issubclass(b, DocumentModel)] holds for [DocBase]. *)
Inductive Base : Type :=
  | PlainBase (ns : gmap string Value)
  | DocBase (c : DocClass).

Definition base_namespace (b : Base) : gmap string Value :=
  match b with
  | PlainBase ns => ns
  | DocBase c => cls_namespace c
  end.

Definition document_bases (bases : list Base) : list DocClass :=
  omap (λ b, match b with DocBase c => Some c | PlainBase _ => None end) bases.

(** The loop over the reversed parents: [fields.update(parent_fields)]
    unless the parent schema is empty. *)
Definition update_from_parent (fields : gmap string Field) (p : DocClass)
  : gmap string Field :=
  if decide (cls_fields p = ∅) then fields else cls_fields p ∪ fields.

Definition inherited_fields (document_model_bound : bool) (bases : list Base)
  : gmap string Field :=
  if document_model_bound
  then foldl update_from_parent ∅ (reverse (document_bases bases))
  else ∅.   (* NameError while [DocumentModel] itself is being defined *)

(** The loop over [dct.items()]: every [Field] is entered under its name. *)
Definition collect_field (name : string) (attr : ClassAttr)
    (fields : gmap string Field) : gmap string Field :=
  match attr with
  | AttrField f => <[name := f]> fields
  | AttrValue _ => fields
  end.

Definition plain_attr (attr : ClassAttr) : option Value :=
  match attr with
  | AttrValue v => Some v
  | AttrField _ => None
  end.

Definition field_attr (attr : ClassAttr) : option Field :=
  match attr with
  | AttrField f => Some f
  | AttrValue _ => None
  end.

(** [MetaClass.__new__(cls, name, bases, dct)]. The flag says whether the
    name [DocumentModel] is bound yet. *)
Definition MetaClass_new (document_model_bound : bool) (name : string)
    (bases : list Base) (dct : gmap string ClassAttr) : DocClass :=
  let fields := inherited_fields document_model_bound bases in
  let fields := map_fold collect_field fields dct in
  let inherited_ns := foldr (λ b ns, base_namespace b ∪ ns) ∅ bases in
  {| cls_name := name;
     cls_namespace := <["_meta" := VOptions]> (omap plain_attr dct ∪ inherited_ns);
     cls_fields := fields;
     cls_bound := omap (λ kv, (kv.1,.) <$> field_attr kv.2) (map_to_list dct) |}.

(** ** Document instances *)

Record Document : Type := mkDocument {
  doc_class : DocClass;
  doc_dict : gmap string Value      (* the instance [__dict__] *)
}.

(** [object.__getattribute__(self, name)]: the instance dictionary first,
    the class namespace next. *)
Definition object_getattribute (self : Document) (name : string) : result Value :=
  match doc_dict self !! name with
  | Some v => Ok v
  | None =>
      match cls_namespace (doc_class self) !! name with
      | Some v => Ok v
      | None => Raise (AttributeError name)
      end
  end.

(** [object.__setattr__(self, name, val)]. *)
Definition object_setattr (self : Document) (name : string) (val : Value) : Document :=
  {| doc_class := doc_class self; doc_dict := <[name := val]> (doc_dict self) |}.

(** [name in meta.fields] followed by [meta.fields[name]], for whatever
    object [meta] is: the schema when it is the class's [Options]; any
    other value has to produce a [fields] attribute first, and a string
    found there supports [in] but not indexing by name. *)
Definition meta_field (self : Document) (meta : Value) (name : string)
  : result (option Field) :=
  match meta with
  | VOptions => Ok (cls_fields (doc_class self) !! name)
  | _ =>
      fs ← py_getattr meta "fields";
      found ← py_in name fs;
      if found : bool then Raise TypeError else Ok None
  end.

(** [DocumentModel.__getattribute__]. *)
Definition getattribute (self : Document) (name : string) : result Value :=
  val ← object_getattribute self name;
  meta ← object_getattribute self "_meta";
  fld ← meta_field self meta name;
  match fld with
  | Some f => to_python f val
  | None => Ok val
  end.

(** [DocumentModel.__setattr__]; [self._meta] is itself an intercepted
    attribute read. *)
Definition setattr (self : Document) (name : string) (val : Value) : result Document :=
  meta ← getattribute self "_meta";
  fld ← meta_field self meta name;
  val ← match fld with
        | Some f => to_search_value f val
        | None => Ok val
        end;
  Ok (object_setattr self name val).

(** [getattr(d, n, None)]: an [AttributeError] from the read, wherever it
    is raised, turns into the default. *)
Definition getattr_default_None (self : Document) (name : string) : result Value :=
  match getattribute self name with
  | Raise (AttributeError _) => Ok VNone
  | r => r
  end.

(** [self._meta.fields.items()]. *)
Definition meta_items (self : Document) : result (list (string * Field)) :=
  meta ← getattribute self "_meta";
  match meta with
  | VOptions => Ok (map_to_list (cls_fields (doc_class self)))
  | _ => _ ← py_getattr meta "fields"; Raise (AttributeError "items")
  end.

(** The class metadata is what [_meta] finds on the instance, by the plain
    lookup of [object] and by the intercepted read [self._meta]. *)
Definition meta_bound (self : Document) : Prop :=
  object_getattribute self "_meta" = Ok VOptions ∧
  getattribute self "_meta" = Ok VOptions.

Section DocumentModel.

(** [unicode(obj)] of an object without a text form of its own falls
    back to its [repr], which shows its address. *)
Variable object_repr : Value → ustring.

Definition unicode_ (v : Value) : result ustring :=
  match v with
  | VUnicode u => Ok u
  | VStr s => if is_ascii s then Ok (codes s) else Raise UnicodeDecodeError
  | VNone => Ok (codes "None")
  | VBool b => Ok (codes (if b then "True" else "False"))
  | VInt z => Ok (codes (pretty z))
  | VOptions | VRangeDocument _ => Ok (object_repr v)
  end.

(** Body of the loop of [__init__]: [kwargs.pop(name, None)], then
    [setattr(self, name, val)]. *)
Definition init_field (st : Document * gmap string Value) (item : string * Field)
  : result (Document * gmap string Value) :=
  let '(self, kwargs) := st in
  let name := item.1 in
  let val := default VNone (kwargs !! name) in
  self' ← setattr self name val;
  Ok (self', delete name kwargs).

(** [unicode(kwargs.get('doc_id', '')).encode('utf-8') or None]. *)
Definition encode_doc_id (kwargs : gmap string Value) : result Value :=
  u ← unicode_ (default (VStr "") (kwargs !! "doc_id"));
  let encoded := VStr (utf8_encode u) in
  Ok (if truthy encoded then encoded else VNone).

(** [DocumentModel.__init__(self, **kwargs)] on a fresh instance of [cls]. *)
Definition DocumentModel_init (cls : DocClass) (kwargs : gmap string Value)
  : result Document :=
  let self := {| doc_class := cls; doc_dict := ∅ |} in
  items ← meta_items self;
  st ← foldM init_field (self, kwargs) items;
  doc_id ← encode_doc_id st.2;
  setattr st.1 "doc_id" doc_id.

End DocumentModel.

(** ** Objects handed around by the facade *)

(** What a range query yields, and what may be passed as a keyword
    argument: a plain value (a [RangeDocument] among them) or a document. *)
Inductive PyObject : Type :=
  | ObjValue (v : Value)
  | ObjDocument (d : Document).

Definition obj_truthy (o : PyObject) : bool :=
  match o with
  | ObjValue v => truthy v
  | ObjDocument _ => true
  end.

(** [o.attr]. *)
Definition obj_getattr (o : PyObject) (attr : string) : result Value :=
  match o with
  | ObjValue v => py_getattr v attr
  | ObjDocument d => getattribute d attr
  end.

(** [RangeDocument.__init__(self, **kwargs)]:
    [self.__dict__.update(kwargs)] on an empty instance dictionary. *)
Definition RangeDocument_init (kwargs : gmap string Value) : Value :=
  VRangeDocument (kwargs ∪ ∅).

(** The [RangeDocument] that [get_range] builds for a wire document. *)
Definition range_document (doc : WireDoc) : PyObject :=
  ObjValue (VRangeDocument {["doc_id" := wd_doc_id doc]}).

(** [documents] of [put]: [len(documents)] raises [TypeError] on a single
    document. *)
Inductive Documents : Type :=
  | Single (d : Document)
  | Batch (ds : list Document).

(** [FIELD_MAP]; a class that is not a key raises [KeyError]. *)
Definition FIELD_MAP (c : FieldClass) : result ApiFieldClass :=
  match c with
  | TextField => Ok ApiTextField
  | IntegerField => Ok ApiNumberField
  | FloatField => Ok ApiNumberField
  | DateField => Ok ApiDateField
  | BooleanField => Ok ApiAtomField
  | OtherField => Raise KeyError
  end.

(** ** The index facade *)

Section Index.

(** The search API: the state of the remote service, index handles, and
    what the remote calls answer. Every remote call may raise. *)
Context {Remote Handle PutResult DeleteResult : Type}.
Variable api_Index : Value → result Handle.
Variable api_get_range :
  Handle → gmap string PyObject → Remote → result (list WireDoc) * Remote.
Variable api_put : Handle → list WireDoc → Remote → result PutResult * Remote.
Variable api_delete : Handle → list Value → Remote → result DeleteResult * Remote.

(** [query.construct_document], not part of the module. *)
Variable construct_document : option DocClass → WireDoc → result Document.

(** The calls made to the remote index, with their answers. *)
Inductive Request : Type :=
  | ReqGetRange (kwargs : gmap string PyObject)
  | ReqPut (docs : list WireDoc)
  | ReqDelete (ids : list Value).

Inductive Reply : Type :=
  | RepPage (page : list WireDoc)
  | RepPut (r : PutResult)
  | RepDelete (r : DeleteResult)
  | RepError (e : exn).

Record World : Type := mkWorld {
  remote : Remote;
  calls : list (Request * Reply)
}.

(** Computations that talk to the remote index. *)
Definition io (A : Type) : Type := World → result A * World.

Definition io_ret {A} (a : A) : io A := λ w, (Ok a, w).
Definition io_bind {A B} (m : io A) (k : A → io B) : io B := λ w,
  match m w with
  | (Ok a, w') => k a w'
  | (Raise e, w') => (Raise e, w')
  end.
Definition io_raise {A} (e : exn) : io A := λ w, (Raise e, w).
Definition io_lift {A} (r : result A) : io A := λ w, (r, w).

Local Notation "x ←← m ;; k" := (io_bind m (λ x, k))
  (at level 100, m at next level, right associativity, only parsing).

Definition reply_of {A} (wrap : A → Reply) (r : result A) : Reply :=
  match r with
  | Ok a => wrap a
  | Raise e => RepError e
  end.

Definition remote_call {A} (req : Request) (wrap : A → Reply)
    (f : Remote → result A * Remote) : io A := λ w,
  let '(r, s) := f (remote w) in
  (r, {| remote := s; calls := calls w ++ [(req, reply_of wrap r)] |}).

(** What the world looks like after one remote call. *)
Definition after_call {A} (w : World) (req : Request) (wrap : A → Reply)
    (answer : result A * Remote) : result A * World :=
  (answer.1,
   {| remote := answer.2; calls := calls w ++ [(req, reply_of wrap answer.1)] |}).

Record Index : Type := mkIndex {
  Index_name : Value;
  _index : Handle
}.

(** [Index.__init__(self, name=None)]. *)
Definition Index_init (name : Value) : result Index :=
  if negb (truthy name)
  then Raise (AssertionError "An index must have a non empty name")
  else
    bang ← py_startswith name "!";
    ok ← (if bang : bool then Ok false else negb <$> py_in " " name);
    if ok : bool then
      h ← api_Index name;
      Ok {| Index_name := name; _index := h |}
    else Raise (AssertionError
      "An index name must not start with a '!' and must not contain spaces").

(** [Index.get_range(self, document_class=None, **kwargs)]. *)
Definition Index_get_range (self : Index) (document_class : option DocClass)
    (kwargs : gmap string PyObject) : io (list PyObject) :=
  let ids_only := default (ObjValue VNone) (kwargs !! "ids_only") in
  if negb (obj_truthy ids_only) && bool_decide (is_Some document_class)
  then io_raise (ValueError
    "If ids_only is False, you must pass a document_class to instantiate with the results")
  else
    docs ←← remote_call (ReqGetRange kwargs) RepPage
              (api_get_range (_index self) kwargs);;
    if obj_truthy ids_only
    then io_ret
      ((λ doc, ObjValue (RangeDocument_init {["doc_id" := wd_doc_id doc]})) <$> docs)
    else io_lift
      (mapM_result (λ doc, ObjDocument <$> construct_document document_class doc) docs).

(** [Index.list_documents(self, **kwargs)]: [document_class], when given,
    is one of the keywords passed on. *)
Definition Index_list_documents (self : Index) (document_class : option DocClass)
    (kwargs : gmap string PyObject) : io (list PyObject) :=
  Index_get_range self document_class kwargs.

(** The inner function [get_fields(d)] of [put]. *)
Definition get_fields (d : Document) : result (list WireField) :=
  items ← meta_items d;
  mapM_result (λ nf : string * Field,
    ctor ← FIELD_MAP (field_class nf.2);
    v ← getattr_default_None d nf.1;
    w ← to_search_value nf.2 v;
    Ok {| wf_class := ctor; wf_name := nf.1; wf_value := w |}) items.

Definition search_document (d : Document) : result WireDoc :=
  doc_id ← getattribute d "doc_id";
  fields ← get_fields d;
  Ok {| wd_doc_id := doc_id; wd_fields := fields |}.

(** [Index.put(self, documents)]. *)
Definition Index_put (self : Index) (documents : Documents) : io PutResult :=
  let documents := match documents with
                   | Single d => [d]
                   | Batch ds => ds
                   end in
  search_docs ←← io_lift (mapM_result search_document documents);;
  remote_call (ReqPut search_docs) RepPut (api_put (_index self) search_docs).

(** [Index.add(self, documents)]. *)
Definition Index_add (self : Index) (documents : Documents) : io PutResult :=
  Index_put self documents.

(** [Index.delete(self, doc_ids)]. *)
Definition Index_delete (self : Index) (doc_ids : list Value) : io DeleteResult :=
  remote_call (ReqDelete doc_ids) RepDelete (api_delete (_index self) doc_ids).

(** [Index.remove(self, doc_ids)]. *)
Definition Index_remove (self : Index) (doc_ids : list Value) : io DeleteResult :=
  Index_delete self doc_ids.

(** The keyword arguments of the two range queries of [purge]. *)
Definition first_page_kwargs : gmap string PyObject :=
  {[ "ids_only" := ObjValue (VBool true) ]}.

Definition next_page_kwargs (last_doc : PyObject) : gmap string PyObject :=
  <["ids_only" := ObjValue (VBool true)]>
    (<["start_id" := last_doc]>
      (<["include_start_object" := ObjValue (VBool false)]> ∅)).

(** The [while docs:] loop of [purge]. [last docs] is [docs[-1]], and is
    [None] exactly when [docs] is empty, the exit test of the loop; [fuel]
    bounds the number of iterations, the result [None] is fuel exhausted. *)
Fixpoint purge_loop (fuel : nat) (self : Index) (docs : list PyObject)
  : io (option unit) :=
  match last docs with
  | None => io_ret (Some tt)
  | Some last_doc =>
      match fuel with
      | O => io_ret None
      | S fuel' =>
          ids ←← io_lift (mapM_result (λ d, obj_getattr d "doc_id") docs);;
          _ ←← Index_delete self ids;;
          docs' ←← Index_get_range self None (next_page_kwargs last_doc);;
          purge_loop fuel' self docs'
      end
  end.

(** [Index.purge(self)]. *)
Definition Index_purge (fuel : nat) (self : Index) : io (option unit) :=
  docs ←← Index_get_range self None first_page_kwargs;;
  purge_loop fuel self docs.

End Index.

(** ** Vocabulary of the properties *)

(** The names [Index.__init__] rejects. *)
Definition bad_name (s : string) : Prop :=
  s = "" ∨ (∃ t, s = String "!"%char t) ∨
  (∃ t1 t2, s = (t1 +:+ String " "%char t2)%string).

(** The same for a [unicode] name: [33] is [!], [32] is the space. *)
Definition bad_uname (u : ustring) : Prop :=
  u = [] ∨ (∃ t, u = 33%N :: t) ∨ 32%N ∈ u.

(** The wire field built for the schema entry [nf] of the document [d]:
    named after the entry, of the API class [FIELD_MAP] gives for the
    field's class, and holding the field's [to_search_value] of what
    [getattr(d, name, None)] observes. *)
Definition wire_field_of (d : Document) (nf : string * Field) (wf : WireField) : Prop :=
  wf_name wf = nf.1 ∧
  FIELD_MAP (field_class nf.2) = Ok (wf_class wf) ∧
  ∃ v, getattr_default_None d nf.1 = Ok v ∧ to_search_value nf.2 v = Ok (wf_value wf).

(** The wire document of [d]: its id is what [d.doc_id] observes, and its
    fields correspond one to one to the entries of the schema found
    through [d._meta]. *)
Definition wire_document_of (d : Document) (wd : WireDoc) : Prop :=
  getattribute d "_meta" = Ok VOptions ∧
  getattribute d "doc_id" = Ok (wd_doc_id wd) ∧
  Forall2 (wire_field_of d) (map_to_list (cls_fields (doc_class d))) (wd_fields wd).

(** The batch [put] works on. *)
Definition batch_of (documents : Documents) : list Document :=
  match documents with
  | Single d => [d]
  | Batch ds => ds
  end.

(** The keywords of the fetch that follows the page ending in [cursor]. *)
Definition fetch_kwargs (cursor : option WireDoc) : gmap string PyObject :=
  match cursor with
  | None => first_page_kwargs
  | Some doc => next_page_kwargs (range_document doc)
  end.

(** The state machine of [purge], over the answered calls to the remote
    index: fetching (after the page that ended in [cursor], if any),
    deleting a page, done. *)
Inductive PurgeState : Type :=
  | FETCHING (cursor : option WireDoc)
  | DELETING (page : list WireDoc)
  | DONE.

(** The state a fetched page leads to. *)
Definition after_fetch (page : list WireDoc) : PurgeState :=
  match page with
  | [] => DONE
  | _ => DELETING page
  end.

Definition state_ok (st : PurgeState) : Prop :=
  match st with
  | DELETING page => page ≠ []
  | _ => True
  end.

(** The call a state is about to make. *)
Definition expected_request (st : PurgeState) (req : Request) : Prop :=
  match st with
  | FETCHING cursor => req = ReqGetRange (fetch_kwargs cursor)
  | DELETING page => req = ReqDelete (wd_doc_id <$> page)
  | DONE => False
  end.

Section PurgeMachine.

Context {PutResult DeleteResult : Type}.
Local Abbreviation Reply := (@Reply PutResult DeleteResult).

Inductive purge_step : PurgeState → Request * Reply → PurgeState → Prop :=
  | step_fetch_empty cursor :
      purge_step (FETCHING cursor)
        (ReqGetRange (fetch_kwargs cursor), RepPage []) DONE
  | step_fetch_page cursor page :
      page ≠ [] →
      purge_step (FETCHING cursor)
        (ReqGetRange (fetch_kwargs cursor), RepPage page) (DELETING page)
  | step_delete page r :
      page ≠ [] →
      purge_step (DELETING page)
        (ReqDelete (wd_doc_id <$> page), RepDelete r) (FETCHING (last page)).

Inductive purge_run : PurgeState → list (Request * Reply) → PurgeState → Prop :=
  | run_stop st : purge_run st [] st
  | run_step st call st' path st'' :
      purge_step st call st' → purge_run st' path st'' →
      purge_run st (call :: path) st''.

(** How a result of [purge] relates to the state the machine stopped in
    and to the calls made after its last step: completion is [DONE], fuel
    runs out on a fetched page not yet deleted, and an exception is the
    failure of the call the state was about to make. *)
Definition purge_outcome (r : result (option unit)) (st : PurgeState)
    (tail : list (Request * Reply)) : Prop :=
  match r with
  | Ok (Some _) => st = DONE ∧ tail = []
  | Ok None => (∃ page, st = DELETING page) ∧ tail = []
  | Raise e => ∃ req, expected_request st req ∧ tail = [(req, RepError e)]
  end.

Definition is_delete (call : Request * Reply) : bool :=
  match call.1 with
  | ReqDelete _ => true
  | _ => false
  end.

(** The cursor of every fetch that follows a deletion: [start_id] is the
    [RangeDocument] of the last id deleted, the object itself. *)
Fixpoint requery_cursors (new : list (Request * Reply)) : Prop :=
  match new with
  | [] => True
  | call :: rest =>
      match call.1, rest with
      | ReqDelete ids, (ReqGetRange kwargs, _) :: _ =>
          ∃ id, last ids = Some id ∧
            kwargs !! "start_id" =
              Some (ObjValue (VRangeDocument {["doc_id" := id]})) ∧
            kwargs !! "include_start_object" = Some (ObjValue (VBool false)) ∧
            kwargs !! "ids_only" = Some (ObjValue (VBool true))
      | _, _ => True
      end ∧ requery_cursors rest
  end.

End PurgeMachine.

(** ** Worked instances

    A small document hierarchy, and a remote index that keeps the ids it
    holds in a list and answers range queries two documents at a time. *)

(** Modelled from the spec: [fields.TextField] ([fields.py] is not part of
    the sources). Text fields pass through as strings with no
    transformation; a missing value stays [None]; an unsupported input type
    fails with a [TypeError]. *)
Definition text_conversion (v : Value) : result Value :=
  match v with
  | VNone | VStr _ | VUnicode _ => Ok v
  | _ => Raise TypeError
  end.

Definition text_field : Field :=
  {| field_class := TextField;
     to_python := text_conversion;
     to_search_value := text_conversion |}.

(** Modelled from the spec: [fields.BooleanField] ([fields.py] is not part
    of the sources). Boolean fields are encoded as an atomic tag value and
    decoded back to a boolean; the spec does not name the tags, they are
    taken to be [1] and [0]. *)
Definition boolean_to_search_value (v : Value) : result Value :=
  match v with
  | VNone => Ok VNone
  | VBool b => Ok (VStr (if b then "1" else "0"))
  | _ => Raise TypeError
  end.

Definition boolean_to_python (v : Value) : result Value :=
  match v with
  | VNone => Ok VNone
  | VStr s => if String.eqb s "1" then Ok (VBool true)
              else if String.eqb s "0" then Ok (VBool false)
              else Raise TypeError
  | _ => Raise TypeError
  end.

Definition boolean_field : Field :=
  {| field_class := BooleanField;
     to_python := boolean_to_python;
     to_search_value := boolean_to_search_value |}.

(** [class DocumentModel(object)], built while its own name is unbound. *)
Definition DocumentModel : DocClass :=
  MetaClass_new false "DocumentModel" [PlainBase ∅] ∅.

(** [class Note(DocumentModel): title = TextField(); kind = 'note'] *)
Definition Note : DocClass :=
  MetaClass_new true "Note" [DocBase DocumentModel]
    (<["title" := AttrField text_field]> (<["kind" := AttrValue (VStr "note")]> ∅)).

(** [class Flagged(DocumentModel): done = BooleanField(); title = BooleanField()] *)
Definition Flagged : DocClass :=
  MetaClass_new true "Flagged" [DocBase DocumentModel]
    (<["done" := AttrField boolean_field]> (<["title" := AttrField boolean_field]> ∅)).

(** [class Task(Note, Flagged): done = TextField()] *)
Definition Task : DocClass :=
  MetaClass_new true "Task" [DocBase Note; DocBase Flagged]
    (<["done" := AttrField text_field]> ∅).

(** A diamond: [class Entry(DocumentModel): status = TextField()],
    [class Draft(Entry): pass],
    [class Checked(Entry): status = BooleanField()] and
    [class Review(Draft, Checked): pass]. *)
Definition Entry : DocClass :=
  MetaClass_new true "Entry" [DocBase DocumentModel]
    (<["status" := AttrField text_field]> ∅).

Definition Draft : DocClass :=
  MetaClass_new true "Draft" [DocBase Entry] ∅.

Definition Checked : DocClass :=
  MetaClass_new true "Checked" [DocBase Entry]
    (<["status" := AttrField boolean_field]> ∅).

Definition Review : DocClass :=
  MetaClass_new true "Review" [DocBase Draft; DocBase Checked] ∅.

(** [class Tagged(DocumentModel): doc_id = TextField()] *)
Definition Tagged : DocClass :=
  MetaClass_new true "Tagged" [DocBase DocumentModel]
    (<["doc_id" := AttrField text_field]> ∅).

(** [class Shadow(DocumentModel): _meta = TextField()] *)
Definition Shadow : DocClass :=
  MetaClass_new true "Shadow" [DocBase DocumentModel]
    (<["_meta" := AttrField text_field]> ∅).

(** A field of a class of its own, [class Keyword(TextField)], which
    converts like its parent. *)
Definition keyword_field : Field :=
  {| field_class := OtherField;
     to_python := text_conversion;
     to_search_value := text_conversion |}.

(** [class Labelled(DocumentModel): label = Keyword()] *)
Definition Labelled : DocClass :=
  MetaClass_new true "Labelled" [DocBase DocumentModel]
    (<["label" := AttrField keyword_field]> ∅).

(** [Labelled(label='x', doc_id='l')]. *)
Definition labelled_l : Document :=
  {| doc_class := Labelled;
     doc_dict := <["label" := VStr "x"]> (<["doc_id" := VStr "l"]> ∅) |}.

(** [repr] of an object, addresses left out. *)
Definition plain_repr (v : Value) : ustring := codes "<object>".

(** [Flagged(done=True, doc_id=u'a')]. *)
Definition flagged_a : Document :=
  {| doc_class := Flagged;
     doc_dict := <["done" := VStr "1"]> (<["title" := VNone]>
                   (<["doc_id" := VStr "a"]> ∅)) |}.

(** The wire document of [flagged_a]. *)
Definition wire_flagged_a : WireDoc :=
  {| wd_doc_id := VStr "a";
     wd_fields :=
       [ {| wf_class := ApiAtomField; wf_name := "title"; wf_value := VNone |};
         {| wf_class := ApiAtomField; wf_name := "done"; wf_value := VStr "1" |} ] |}.

(** The remote index: the ids it holds, in order. *)
Definition toy_Index (name : Value) : result string :=
  match name with
  | VStr s => Ok s
  | _ => Raise TypeError
  end.

Definition toy_get_range (h : string) (kwargs : gmap string PyObject)
    (ids : list string) : result (list WireDoc) * list string :=
  (Ok ((λ id, {| wd_doc_id := VStr id; wd_fields := [] |}) <$> take 2 ids), ids).

(** A remote index whose range query takes an id as [start_id]: the page
    holds the first two ids from that id on, the id itself left out when
    [include_start_object] is false; a cursor that is not an id is a
    [TypeError]. *)
Definition strict_get_range (h : string) (kwargs : gmap string PyObject)
    (ids : list string) : result (list WireDoc) * list string :=
  let page (from : list string) : list WireDoc :=
    (λ id, {| wd_doc_id := VStr id; wd_fields := [] |}) <$> take 2 from in
  let inclusive :=
    obj_truthy (default (ObjValue (VBool true)) (kwargs !! "include_start_object")) in
  match kwargs !! "start_id" with
  | None | Some (ObjValue VNone) => (Ok (page ids), ids)
  | Some (ObjValue (VStr s)) =>
      (Ok (page (List.filter
                   (λ id, String.ltb s id || (inclusive && String.eqb s id)) ids)),
       ids)
  | Some _ => (Raise TypeError, ids)
  end.

Definition value_is_str (s : string) (v : Value) : bool :=
  match v with
  | VStr t => String.eqb s t
  | _ => false
  end.

Definition toy_delete (h : string) (doc_ids : list Value) (ids : list string)
  : result unit * list string :=
  (Ok tt, List.filter (λ id, negb (existsb (value_is_str id) doc_ids)) ids).

Definition toy_put (h : string) (docs : list WireDoc) (ids : list string)
  : result (list Value) * list string :=
  (Ok (wd_doc_id <$> docs),
   ids ++ omap (λ d, match wd_doc_id d with VStr s => Some s | _ => None end) docs).

Definition toy_construct_document (document_class : option DocClass) (doc : WireDoc)
  : result Document :=
  match document_class with
  | None => Raise TypeError
  | Some cls => DocumentModel_init plain_repr cls {["doc_id" := wd_doc_id doc]}
  end.

Definition toy_index : @Index string := {| Index_name := VStr "notes"; _index := "notes" |}.

Definition toy_world (ids : list string) : @World (list string) (list Value) unit :=
  {| remote := ids; calls := [] |}.

(** ** Vocabulary of the further properties *)




(** The state a [DELETING] state still has to delete. *)
Definition pending_ids (st : PurgeState) : list Value :=
  match st with
  | DELETING page => wd_doc_id <$> page
  | _ => []
  end.

Section CallLog.

Context {Remote PutResult DeleteResult : Type}.
Local Abbreviation Reply := (@Reply PutResult DeleteResult).

(** The ids of the pages the remote index answered with. *)
Definition fetched_ids (log : list (Request * Reply)) : list Value :=
  log ≫= λ call,
    match call with
    | (ReqGetRange _, RepPage page) => wd_doc_id <$> page
    | _ => []
    end.

(** The ids the remote index was asked to delete. *)
Definition deleted_ids (log : list (Request * Reply)) : list Value :=
  log ≫= λ call,
    match call.1 with
    | ReqDelete ids => ids
    | _ => []
    end.

Definition is_put (call : Request * Reply) : bool :=
  match call.1 with
  | ReqPut _ => true
  | _ => false
  end.

End CallLog.

(** * Properties *)

(** ** The schema registry *)

Lemma update_from_parent_union fields p :
  update_from_parent fields p = cls_fields p ∪ fields.
Proof.
  unfold update_from_parent. case_decide as Hempty; [|done].
  by rewrite Hempty, (left_id_L ∅ (∪)).
Qed.

Lemma inherited_fields_foldr bases :
  inherited_fields true bases =
  foldr (λ p acc, cls_fields p ∪ acc) ∅ (document_bases bases).
Proof.
  unfold inherited_fields.
  induction (document_bases bases) as [|p ps IH]; [done|].
  by rewrite reverse_cons, foldl_snoc, update_from_parent_union, IH.
Qed.

Lemma collect_field_lookup (init : gmap string Field) (dct : gmap string ClassAttr) n :
  map_fold collect_field init dct !! n =
  match dct !! n ≫= field_attr with
  | Some f => Some f
  | None => init !! n
  end.
Proof.
  apply (map_fold_weak_ind (λ r m, r !! n =
    match m !! n ≫= field_attr with Some f => Some f | None => init !! n end)).
  - by rewrite lookup_empty.
  - intros i x m r Hi IH. destruct (decide (i = n)) as [->|Hne].
    + rewrite lookup_insert_eq. simpl. rewrite Hi in IH. simpl in IH.
      destruct x as [f|v]; simpl; [by rewrite lookup_insert_eq|done].
    + rewrite lookup_insert_ne by done.
      destruct x as [f|v]; simpl; [by rewrite lookup_insert_ne|done].
Qed.

Lemma parents_lookup_first (before after : list DocClass) (A : DocClass) n :
  (∀ P, P ∈ before → cls_fields P !! n = None) →
  foldr (λ p acc, cls_fields p ∪ acc) ∅ (before ++ A :: after) !! n =
  match cls_fields A !! n with
  | Some f => Some f
  | None => foldr (λ p acc, cls_fields p ∪ acc) ∅ after !! n
  end.
Proof.
  induction before as [|P before IH]; intros Hnone; simpl.
  - rewrite lookup_union. destruct (cls_fields A !! n); simpl; [|by rewrite (left_id None _)].
    by destruct (foldr _ _ after !! n).
  - rewrite lookup_union, (Hnone P) by set_solver.
    rewrite (left_id None _). apply IH. intros Q HQ. apply Hnone. set_solver.
Qed.

Lemma parents_lookup_Some (ps : list DocClass) n f :
  foldr (λ p acc, cls_fields p ∪ acc) ∅ ps !! n = Some f →
  ∃ P, P ∈ ps ∧ cls_fields P !! n = Some f.
Proof.
  induction ps as [|P ps IH]; simpl; [by rewrite lookup_empty|].
  rewrite lookup_union_Some_raw. intros [H|[_ H]].
  - exists P. split; [constructor|done].
  - destruct (IH H) as (Q & HQ & Hf). exists Q. split; [by constructor|done].
Qed.

Lemma parents_lookup_is_Some (ps : list DocClass) (A : DocClass) n :
  A ∈ ps → is_Some (cls_fields A !! n) →
  is_Some (foldr (λ p acc, cls_fields p ∪ acc) ∅ ps !! n).
Proof.
  induction ps as [|P ps IH]; [set_solver|].
  intros [->|HA]%elem_of_cons Hn; simpl; rewrite lookup_union_is_Some; auto.
Qed.

Lemma document_bases_elem (bases : list Base) (A : DocClass) :
  A ∈ document_bases bases ↔ DocBase A ∈ bases.
Proof.
  unfold document_bases. rewrite list_elem_of_omap. split.
  - intros ([ns|c] & Hb & Heq); [done|]. by simplify_eq.
  - intros HA. by exists (DocBase A).
Qed.

Lemma document_bases_app (l1 l2 : list Base) :
  document_bases (l1 ++ l2) = document_bases l1 ++ document_bases l2.
Proof. apply omap_app. Qed.

Lemma MetaClass_new_fields bound cname bases dct :
  cls_fields (MetaClass_new bound cname bases dct) =
  map_fold collect_field (inherited_fields bound bases) dct.
Proof. reflexivity. Qed.

Lemma MetaClass_new_meta bound cname bases dct :
  cls_namespace (MetaClass_new bound cname bases dct) !! "_meta" = Some VOptions.
Proof. apply lookup_insert_eq. Qed.

(** C4 (the code as it is). A class built by the metaclass from bases
    that include the document class [A] has every field name of [A] in its
    schema; a field declared in the class body is the one the schema holds
    under its name; a name the body does not declare as a field comes from
    the leftmost base whose schema has it; and the schema holds nothing but
    body fields and base fields. The schema of a base is taken as a whole,
    whatever class first declared its entries: when the leftmost base [A]
    extends [G] and inherits the field [n] from it, the class gets the
    definition of [G] even if a base further right, [C], extends [G] too
    and overrides [n]. There the more derived definition, the one
    attribute lookup along the MRO finds, loses. *)
Theorem schema_inheritance (cname : string) (bases : list Base)
    (dct : gmap string ClassAttr) (A : DocClass) :
  DocBase A ∈ bases →
  let B := MetaClass_new true cname bases dct in
  (∀ n, is_Some (cls_fields A !! n) → is_Some (cls_fields B !! n)) ∧
  (∀ n f, dct !! n = Some (AttrField f) → cls_fields B !! n = Some f) ∧
  (∀ before after n f,
      bases = before ++ DocBase A :: after →
      (∀ f', dct !! n ≠ Some (AttrField f')) →
      (∀ P, DocBase P ∈ before → cls_fields P !! n = None) →
      cls_fields A !! n = Some f →
      cls_fields B !! n = Some f) ∧
  (∀ n f, cls_fields B !! n = Some f →
      dct !! n = Some (AttrField f) ∨
      ∃ P, DocBase P ∈ bases ∧ cls_fields P !! n = Some f) ∧
  (∀ rest G aname abody C cname' cbody n f g,
      bases = DocBase A :: rest →
      A = MetaClass_new true aname [DocBase G] abody →
      DocBase C ∈ rest →
      C = MetaClass_new true cname' [DocBase G] cbody →
      cls_fields G !! n = Some f →
      (∀ f', abody !! n ≠ Some (AttrField f')) →
      cbody !! n = Some (AttrField g) →
      (∀ f', dct !! n ≠ Some (AttrField f')) →
      cls_fields C !! n = Some g ∧ cls_fields B !! n = Some f).
Proof.
  intros HA B. subst B. rewrite MetaClass_new_fields, inherited_fields_foldr.
  assert (∀ before after n f,
      bases = before ++ DocBase A :: after →
      (∀ f', dct !! n ≠ Some (AttrField f')) →
      (∀ P, DocBase P ∈ before → cls_fields P !! n = None) →
      cls_fields A !! n = Some f →
      map_fold collect_field
        (foldr (λ p acc, cls_fields p ∪ acc) ∅ (document_bases bases)) dct !! n =
      Some f) as Hleft.
  { intros before after n f -> Hown Hbefore Hn.
    rewrite collect_field_lookup, document_bases_app.
    destruct (dct !! n) as [[f'|v]|] eqn:Hd; simpl; [by destruct (Hown f')| |].
    all: rewrite parents_lookup_first, Hn; [done|].
    all: intros P HP; apply Hbefore; by apply document_bases_elem. }
  split; [|split; [|split; [|split]]].
  - intros n Hn. rewrite collect_field_lookup.
    destruct (dct !! n ≫= field_attr); [done|].
    apply (parents_lookup_is_Some _ A); [by apply document_bases_elem|done].
  - intros n f Hn. by rewrite collect_field_lookup, Hn.
  - exact Hleft.
  - intros n f. rewrite collect_field_lookup.
    destruct (dct !! n) as [[f'|v]|] eqn:Hd; simpl.
    + intros [= ->]. by left.
    + intros (P & HP & Hf)%parents_lookup_Some.
      right. exists P. by rewrite <- document_bases_elem.
    + intros (P & HP & Hf)%parents_lookup_Some.
      right. exists P. by rewrite <- document_bases_elem.
  - intros rest G aname abody C cname' cbody n f g Hbases HAdef HC HCdef
      HG Habody Hcbody Hown.
    split.
    + by rewrite HCdef, MetaClass_new_fields, collect_field_lookup, Hcbody.
    + apply (Hleft [] rest n f Hbases Hown); [by intros P ?%elem_of_nil|].
      rewrite HAdef, MetaClass_new_fields, inherited_fields_foldr,
        collect_field_lookup.
      destruct (abody !! n) as [[f'|v]|] eqn:Hd; simpl;
        [by destruct (Habody f')| |].
      all: by rewrite lookup_union, HG.
Qed.

(** ** Attribute interception *)

Lemma getattribute_unfold (self : Document) (attr : string) :
  object_getattribute self "_meta" = Ok VOptions →
  getattribute self attr =
  (val ← object_getattribute self attr;
   match cls_fields (doc_class self) !! attr with
   | Some f => to_python f val
   | None => Ok val
   end).
Proof.
  intros Hmeta. unfold getattribute. rewrite Hmeta.
  by destruct (object_getattribute self attr).
Qed.

Lemma getattribute_meta (self : Document) :
  meta_bound self → getattribute self "_meta" = Ok VOptions.
Proof. by intros [_ Hmeta]. Qed.

Lemma setattr_unfold (self : Document) (attr : string) (v : Value) :
  meta_bound self →
  setattr self attr v =
  (val ← match cls_fields (doc_class self) !! attr with
         | Some f => to_search_value f v
         | None => Ok v
         end;
   Ok (object_setattr self attr val)).
Proof.
  intros Hb. unfold setattr. by rewrite (getattribute_meta _ Hb).
Qed.

Lemma object_getattribute_setattr_eq (self : Document) (attr : string) (w : Value) :
  object_getattribute (object_setattr self attr w) attr = Ok w.
Proof.
  unfold object_getattribute, object_setattr; simpl. by rewrite lookup_insert_eq.
Qed.

Lemma object_getattribute_setattr_ne (self : Document) (attr other : string) (w : Value) :
  attr ≠ other →
  object_getattribute (object_setattr self attr w) other =
  object_getattribute self other.
Proof.
  intros Hne. unfold object_getattribute, object_setattr; simpl.
  by rewrite lookup_insert_ne.
Qed.

Lemma meta_bound_setattr (self : Document) (attr : string) (w : Value) :
  meta_bound self → attr ≠ "_meta" → meta_bound (object_setattr self attr w).
Proof.
  intros [Hraw Hmeta] Hne.
  assert (object_getattribute (object_setattr self attr w) "_meta" = Ok VOptions)
    as Hraw' by by rewrite object_getattribute_setattr_ne.
  split; [done|].
  rewrite getattribute_unfold in Hmeta |- * by done.
  by rewrite Hraw' in *; rewrite Hraw in Hmeta.
Qed.

(** C5 (as amended). On an instance whose class metadata is in place, and
    for an attribute other than [_meta]: assigning [v] to a schema field [f] stores
    [f.to_search_value(v)] (or raises what the conversion raises, storing
    nothing), reading a field returns [f.to_python] of the stored value, so
    that a write followed by a read returns
    [f.to_python(f.to_search_value(v))]; an attribute that is not a schema
    field is stored and read back unchanged. *)
Theorem set_then_get (self : Document) (attr : string) (v : Value) :
  meta_bound self → attr ≠ "_meta" →
  (∀ w, doc_dict self !! attr = Some w →
     getattribute self attr =
     match cls_fields (doc_class self) !! attr with
     | Some f => to_python f w
     | None => Ok w
     end) ∧
  match cls_fields (doc_class self) !! attr with
  | Some f =>
      match to_search_value f v with
      | Ok w =>
          ∃ self', setattr self attr v = Ok self' ∧
            doc_class self' = doc_class self ∧
            doc_dict self' = <[attr := w]> (doc_dict self) ∧
            getattribute self' attr = to_python f w
      | Raise e => setattr self attr v = Raise e
      end
  | None =>
      ∃ self', setattr self attr v = Ok self' ∧
        doc_class self' = doc_class self ∧
        doc_dict self' = <[attr := v]> (doc_dict self) ∧
        getattribute self' attr = Ok v
  end.
Proof.
  intros Hb Hne. split.
  - intros w Hw. destruct Hb as [Hmeta _].
    rewrite getattribute_unfold by done.
    unfold object_getattribute. by rewrite Hw.
  - rewrite setattr_unfold by done.
    destruct (cls_fields (doc_class self) !! attr) as [f|] eqn:Hf.
    + destruct (to_search_value f v) as [w|e]; simpl; [|done].
      exists (object_setattr self attr w). repeat split.
      destruct (meta_bound_setattr self attr w Hb Hne) as [Hmeta' _].
      rewrite getattribute_unfold by done.
      rewrite object_getattribute_setattr_eq; simpl. by rewrite Hf.
    + simpl. exists (object_setattr self attr v). repeat split.
      destruct (meta_bound_setattr self attr v Hb Hne) as [Hmeta' _].
      rewrite getattribute_unfold by done.
      rewrite object_getattribute_setattr_eq; simpl. by rewrite Hf.
Qed.

(** ** Construction of a document *)

Lemma utf8_encode_char_not_nil (c : N) : utf8_encode_char c ≠ [].
Proof. unfold utf8_encode_char. by repeat case_match. Qed.

Lemma utf8_encode_empty (u : ustring) : utf8_encode u = "" ↔ u = [].
Proof.
  split; [|by intros ->].
  destruct u as [|c u]; [done|]. unfold utf8_encode; simpl.
  pose proof (utf8_encode_char_not_nil c) as Hc.
  destruct (utf8_encode_char c); [done|]. simpl. discriminate.
Qed.

Lemma utf8_encode_ascii (s : string) : is_ascii s = true → utf8_encode (codes s) = s.
Proof.
  unfold utf8_encode, codes, is_ascii.
  induction s as [|c s IH]; [done|]. simpl.
  intros [Hc Hs]%andb_prop. apply N.ltb_lt in Hc.
  unfold utf8_encode_char at 1.
  destruct (N.ltb_spec (N_of_ascii c) 128) as [_|Hge]; [|lia].
  simpl. rewrite ascii_N_embedding. f_equal. by apply IH.
Qed.

Section Construction.

Variable object_repr : Value → ustring.

Lemma encode_doc_id_unfold (kwargs : gmap string Value) :
  encode_doc_id object_repr kwargs =
  (u ← unicode_ object_repr (default (VStr "") (kwargs !! "doc_id"));
   Ok (if decide (u = []) then VNone else VStr (utf8_encode u))).
Proof.
  unfold encode_doc_id.
  destruct (unicode_ _ _) as [u|e]; simpl; [|done]. f_equal.
  case_decide as Hu.
  - by subst u.
  - destruct (String.eqb_spec (utf8_encode u) "") as [He|He]; [|done].
    by apply utf8_encode_empty in He.
Qed.

(** The loop of [__init__] over any duplicate-free list of schema items:
    it either stores the converted keyword (or converted [None]) under
    every name and consumes those keywords, or stops at the first
    conversion that raises. *)
Lemma init_fields_spec (items : list (string * Field)) :
  ∀ (self : Document) (kwargs : gmap string Value),
  meta_bound self →
  cls_fields (doc_class self) !! "_meta" = None →
  NoDup items.*1 →
  (∀ n f, (n, f) ∈ items → cls_fields (doc_class self) !! n = Some f) →
  match foldM init_field (self, kwargs) items with
  | Ok (self', kwargs') =>
      doc_class self' = doc_class self ∧ meta_bound self' ∧
      (∀ n f, (n, f) ∈ items →
         ∃ w, to_search_value f (default VNone (kwargs !! n)) = Ok w ∧
              doc_dict self' !! n = Some w) ∧
      (∀ n, n ∉ items.*1 →
         doc_dict self' !! n = doc_dict self !! n ∧ kwargs' !! n = kwargs !! n)
  | Raise e =>
      ∃ n f, (n, f) ∈ items ∧
             to_search_value f (default VNone (kwargs !! n)) = Raise e
  end.
Proof.
  induction items as [|[n f] items IH]; intros self kwargs Hb Hnometa Hnd Hfld.
  - simpl. split; [done|]. split; [done|]. split; [|done].
    intros n f Hin. by apply elem_of_nil in Hin.
  - simpl in Hnd. apply NoDup_cons in Hnd as [Hn Hnd].
    assert (cls_fields (doc_class self) !! n = Some f) as Hf
      by (apply Hfld; constructor).
    assert (n ≠ "_meta") as Hne by (intros ->; congruence).
    cbn [foldM]. unfold init_field at 2. cbn [fst snd].
    rewrite setattr_unfold, Hf by done.
    destruct (to_search_value f (default VNone (kwargs !! n))) as [w|e] eqn:Hw;
      simpl; [|exists n, f; split; [constructor|done]].
    specialize (IH (object_setattr self n w) (delete n kwargs)
                   (meta_bound_setattr _ _ _ Hb Hne) Hnometa Hnd).
    destruct (foldM init_field _ items) as [[self' kwargs']|e].
    + destruct IH as (Hcls & Hb' & Hitems & Hrest).
      { intros m g Hin. apply Hfld. by constructor. }
      split; [done|]. split; [done|]. split.
      * intros m g [[= -> ->]|Hin]%elem_of_cons.
        -- exists w. split; [done|].
           destruct (Hrest n Hn) as [-> _]. simpl. by rewrite lookup_insert_eq.
        -- destruct (Hitems m g Hin) as (w' & Hw' & Hd).
           assert (n ≠ m) as Hnm.
           { intros ->. apply Hn. apply list_elem_of_fmap. by exists (m, g). }
           rewrite lookup_delete_ne in Hw' by done. by exists w'.
      * intros m Hm. apply not_elem_of_cons in Hm as [Hmn Hm].
        destruct (Hrest m Hm) as [-> ->]. simpl.
        by rewrite lookup_insert_ne, lookup_delete_ne.
    + destruct IH as (m & g & Hin & Hraise).
      { intros m g Hin. apply Hfld. by constructor. }
      assert (n ≠ m) as Hnm.
      { intros ->. apply Hn. apply list_elem_of_fmap. by exists (m, g). }
      rewrite lookup_delete_ne in Hraise by done.
      exists m, g. split; [by constructor|done].
Qed.

Lemma fresh_instance_meta_bound (cls : DocClass) :
  cls_namespace cls !! "_meta" = Some VOptions →
  cls_fields cls !! "_meta" = None →
  meta_bound {| doc_class := cls; doc_dict := ∅ |}.
Proof.
  intros Hns Hfld.
  assert (object_getattribute {| doc_class := cls; doc_dict := ∅ |} "_meta"
          = Ok VOptions) as Hraw.
  { unfold object_getattribute; simpl. by rewrite lookup_empty, Hns. }
  split; [done|]. rewrite getattribute_unfold by done.
  rewrite Hraw. simpl. by rewrite Hfld.
Qed.

(** C6 (as amended). For a class whose metadata is in place and whose
    schema uses neither [_meta] nor [doc_id] as a field name,
    construction stores, for every schema field, the field's
    [to_search_value] of the keyword of that name, or of [None] when the
    keyword is missing; [doc_id] holds the UTF-8 bytes of the text of the
    [doc_id] keyword, and [None] when the keyword is missing or its text
    is empty; nothing else is stored, and the class metadata stays in
    place. Construction raises exactly when one of these conversions
    raises. *)
Theorem init_spec (cls : DocClass) (kwargs : gmap string Value) :
  cls_namespace cls !! "_meta" = Some VOptions →
  cls_fields cls !! "_meta" = None →
  cls_fields cls !! "doc_id" = None →
  match DocumentModel_init object_repr cls kwargs with
  | Ok self =>
      doc_class self = cls ∧ meta_bound self ∧
      (∀ n f, cls_fields cls !! n = Some f →
         ∃ w, to_search_value f (default VNone (kwargs !! n)) = Ok w ∧
              doc_dict self !! n = Some w) ∧
      (∃ u, unicode_ object_repr (default (VStr "") (kwargs !! "doc_id")) = Ok u ∧
            doc_dict self !! "doc_id" =
            Some (if decide (u = []) then VNone else VStr (utf8_encode u))) ∧
      (kwargs !! "doc_id" = None → doc_dict self !! "doc_id" = Some VNone) ∧
      (∀ n, is_Some (doc_dict self !! n) →
         n = "doc_id" ∨ is_Some (cls_fields cls !! n))
  | Raise e =>
      (∃ n f, cls_fields cls !! n = Some f ∧
              to_search_value f (default VNone (kwargs !! n)) = Raise e) ∨
      unicode_ object_repr (default (VStr "") (kwargs !! "doc_id")) = Raise e
  end.
Proof.
  intros Hns Hmeta Hid. unfold DocumentModel_init.
  pose proof (fresh_instance_meta_bound cls Hns Hmeta) as Hb.
  set (self0 := {| doc_class := cls; doc_dict := ∅ |}) in *.
  unfold meta_items. rewrite (getattribute_meta _ Hb). simpl.
  pose proof (init_fields_spec (map_to_list (cls_fields cls)) self0 kwargs Hb
                Hmeta (NoDup_fst_map_to_list _)) as Hloop.
  destruct (foldM init_field (self0, kwargs) _) as [[self1 kwargs1]|e]; simpl.
  - destruct Hloop as (Hcls & Hb1 & Hitems & Hrest).
    { intros n f Hin. by apply elem_of_map_to_list in Hin. }
    assert ("doc_id" ∉ (map_to_list (cls_fields cls)).*1) as Hfresh.
    { intros ((n & f) & Heq & Hin)%list_elem_of_fmap.
      apply elem_of_map_to_list in Hin. simpl in Heq. congruence. }
    destruct (Hrest _ Hfresh) as [_ Hkw]. rewrite encode_doc_id_unfold, Hkw.
    destruct (unicode_ object_repr _) as [u|e] eqn:Hu; simpl; [|by right].
    rewrite setattr_unfold by done. rewrite Hcls. simpl. rewrite Hid. simpl.
    split; [done|]. split; [by apply meta_bound_setattr|].
    split; [|split; [|split]].
    + intros n f Hf. destruct (Hitems n f) as (w & Hw & Hd).
      { by apply elem_of_map_to_list. }
      exists w. split; [done|]. rewrite lookup_insert_ne; [done|congruence].
    + exists u. by rewrite lookup_insert_eq.
    + intros Hmissing. rewrite Hmissing in Hu. simpl in Hu.
      injection Hu as <-. by rewrite lookup_insert_eq.
    + intros n Hn. destruct (decide (n = "doc_id")) as [->|Hne]; [by left|right].
      rewrite lookup_insert_ne in Hn by done.
      destruct (cls_fields cls !! n) as [f|] eqn:Hf; [done|].
      destruct (Hrest n) as [Hd _].
      { intros ((m & g) & Heq & Hin)%list_elem_of_fmap.
        apply elem_of_map_to_list in Hin. simpl in Heq. congruence. }
      rewrite Hd in Hn. simpl in Hn. rewrite lookup_empty in Hn.
      by destruct Hn.
  - destruct Hloop as (n & f & Hin & Hraise).
    { intros n f Hin. by apply elem_of_map_to_list in Hin. }
    left. exists n, f. split; [|done]. by apply elem_of_map_to_list in Hin.
Qed.

End Construction.

(** ** The index facade *)

Lemma mapM_result_Ok {A B} (f : A → result B) (xs : list A) (ys : list B) :
  mapM_result f xs = Ok ys ↔ Forall2 (λ x y, f x = Ok y) xs ys.
Proof.
  revert ys. induction xs as [|x xs IH]; intros ys; simpl.
  - split; [intros [= <-]; constructor|by intros ->%Forall2_nil_inv_l].
  - destruct (f x) as [y|e] eqn:Hx; simpl.
    + destruct (mapM_result f xs) as [ys'|e] eqn:Hxs; simpl.
      * split.
        -- intros [= <-]. constructor; [done|by apply IH].
        -- intros (y' & ys'' & Hy & Hys & ->)%Forall2_cons_inv_l.
           apply IH in Hys. congruence.
      * split; [done|].
        intros (y' & ys'' & Hy & Hys & ->)%Forall2_cons_inv_l.
        apply IH in Hys. congruence.
    + split; [done|].
      intros (y' & ys'' & Hy & Hys & ->)%Forall2_cons_inv_l. congruence.
Qed.

Lemma prefix_char (a : ascii) (s : string) :
  String.prefix (String a "") s = true ↔ ∃ t, s = String a t.
Proof.
  destruct s as [|c s]; cbn [String.prefix].
  - split; [done|]. by intros [t ?].
  - destruct (Ascii.ascii_dec a c) as [<-|Hne].
    + split; [by exists s|]. by destruct s.
    + split; [done|]. intros [t [= -> _]]. by destruct Hne.
Qed.

Lemma substringb_space (s : string) :
  substringb " " s = true ↔ ∃ t1 t2, s = (t1 +:+ String " "%char t2)%string.
Proof.
  induction s as [|c s IH].
  - simpl. split; [done|]. intros (t1 & t2 & Heq). by destruct t1.
  - cbn [substringb]. rewrite orb_true_iff, prefix_char, IH. split.
    + intros [[t ->]|(t1 & t2 & ->)].
      * by exists "", t.
      * by exists (String c t1), t2.
    + intros ([|c' t1] & t2 & Heq); simpl in Heq; injection Heq as -> ->.
      * left. by exists t2.
      * right. by exists t1, t2.
Qed.

Section IndexProperties.

Context {Remote Handle PutResult DeleteResult : Type}.
Variable api_Index : Value → result Handle.
Variable api_get_range :
  Handle → gmap string PyObject → Remote → result (list WireDoc) * Remote.
Variable api_put : Handle → list WireDoc → Remote → result PutResult * Remote.
Variable api_delete : Handle → list Value → Remote → result DeleteResult * Remote.
Variable construct_document : option DocClass → WireDoc → result Document.

Local Abbreviation World := (@World Remote PutResult DeleteResult).
Local Abbreviation Reply := (@Reply PutResult DeleteResult).
Local Abbreviation purge_step := (@purge_step PutResult DeleteResult).
Local Abbreviation purge_run := (@purge_run PutResult DeleteResult).
Local Abbreviation purge_outcome := (@purge_outcome PutResult DeleteResult).
Local Abbreviation is_delete := (@is_delete PutResult DeleteResult).
Local Abbreviation requery_cursors := (@requery_cursors PutResult DeleteResult).
Local Abbreviation get_range := (Index_get_range api_get_range construct_document).
Local Abbreviation purge := (Index_purge api_get_range api_delete construct_document).

Lemma Index_init_str (s : string) :
  Index_init api_Index (VStr s) =
  if String.eqb s "" then
    Raise (AssertionError "An index must have a non empty name")
  else if String.prefix "!" s || substringb " " s then
    Raise (AssertionError
      "An index name must not start with a '!' and must not contain spaces")
  else h ← api_Index (VStr s); Ok {| Index_name := VStr s; _index := h |}.
Proof.
  unfold Index_init. cbn [truthy py_startswith py_in].
  destruct (String.eqb s ""); [done|]. cbn [negb mbind result_bind].
  destruct (String.prefix "!" s); [done|]. cbn [orb fmap result_fmap].
  by destruct (substringb " " s).
Qed.

Lemma uprefix_char (c : N) (u : ustring) :
  uprefix [c] u = true ↔ ∃ t, u = c :: t.
Proof.
  destruct u as [|d u]; cbn [uprefix].
  - split; [done|]. by intros [t ?].
  - rewrite andb_true_r, N.eqb_eq. split; [intros ->; by exists u|].
    by intros [t [= -> _]].
Qed.

Lemma usubstringb_char (c : N) (u : ustring) :
  usubstringb [c] u = true ↔ c ∈ u.
Proof.
  induction u as [|d u IH].
  - cbn. split; [done|]. by intros ?%elem_of_nil.
  - cbn [usubstringb]. rewrite orb_true_iff, uprefix_char, IH, elem_of_cons.
    split; (intros [H|H]; [left|by right]).
    + by destruct H as [t [= ->]].
    + subst d. by exists u.
Qed.

Lemma Index_init_unicode (u : ustring) :
  Index_init api_Index (VUnicode u) =
  match u with
  | [] => Raise (AssertionError "An index must have a non empty name")
  | _ =>
      if uprefix [33%N] u || usubstringb [32%N] u then
        Raise (AssertionError
          "An index name must not start with a '!' and must not contain spaces")
      else h ← api_Index (VUnicode u); Ok {| Index_name := VUnicode u; _index := h |}
  end.
Proof.
  unfold Index_init. cbn [truthy py_startswith py_in].
  destruct u as [|c u]; [done|]. cbn [negb mbind result_bind].
  change (is_ascii "!") with true. change (codes "!") with [33%N].
  change (is_ascii " ") with true. change (codes " ") with [32%N].
  cbn iota. destruct (uprefix [33%N] (c :: u)); [done|]. cbn [orb fmap result_fmap].
  by destruct (usubstringb [32%N] (c :: u)).
Qed.

Lemma bad_uname_spec (u : ustring) :
  bad_uname u ↔
  match u with [] => true | _ => uprefix [33%N] u || usubstringb [32%N] u end = true.
Proof.
  unfold bad_uname. destruct u as [|c u].
  - split; [done|]. by left.
  - rewrite orb_true_iff, uprefix_char, usubstringb_char. split; [|tauto].
    by intros [?|[?|?]]; [|left|right].
Qed.

Lemma bad_name_spec (s : string) :
  bad_name s ↔ String.eqb s "" || (String.prefix "!" s || substringb " " s) = true.
Proof.
  unfold bad_name.
  rewrite !orb_true_iff, String.eqb_eq, prefix_char, substringb_space. tauto.
Qed.

(** C3. [Index(name)] fails with an assertion error when the name is
    [None], empty, starts with [!] or contains a space, be it a byte string
    or a [unicode] string; for every other string it passes its own checks,
    asks the search API for the handle and returns the instance that stores
    the name. So it fails on the empty name, on [bad name] and on [!bad],
    and succeeds on [good-index]. *)
Theorem Index_init_name (s : string) (u : ustring) :
  (∃ msg, Index_init api_Index VNone = Raise (AssertionError msg)) ∧
  (bad_name s → ∃ msg, Index_init api_Index (VStr s) = Raise (AssertionError msg)) ∧
  (¬ bad_name s →
     Index_init api_Index (VStr s) =
     (h ← api_Index (VStr s); Ok {| Index_name := VStr s; _index := h |})) ∧
  (bad_uname u → ∃ msg, Index_init api_Index (VUnicode u) = Raise (AssertionError msg)) ∧
  (¬ bad_uname u →
     Index_init api_Index (VUnicode u) =
     (h ← api_Index (VUnicode u); Ok {| Index_name := VUnicode u; _index := h |})) ∧
  bad_name "" ∧ bad_name "bad name" ∧ bad_name "!bad" ∧ ¬ bad_name "good-index".
Proof.
  split; [by eexists|]. split; [|split; [|split; [|split]]].
  - intros Hbad%bad_name_spec. rewrite Index_init_str.
    destruct (String.eqb s ""); [by eexists|]. simpl in Hbad. rewrite Hbad.
    by eexists.
  - intros Hgood. rewrite Index_init_str.
    destruct (String.eqb s "") eqn:He.
    { destruct Hgood. apply bad_name_spec. by rewrite He. }
    destruct (String.prefix "!" s || substringb " " s) eqn:Hp; [|done].
    destruct Hgood. apply bad_name_spec. by rewrite He, Hp.
  - intros Hbad%bad_uname_spec. rewrite Index_init_unicode.
    destruct u; [by eexists|]. rewrite Hbad. by eexists.
  - intros Hgood. rewrite Index_init_unicode.
    destruct u as [|c u]; [destruct Hgood; by left|].
    destruct (uprefix [33%N] (c :: u) || usubstringb [32%N] (c :: u)) eqn:Hp; [|done].
    destruct Hgood. by apply bad_uname_spec.
  - rewrite !bad_name_spec. by vm_compute.
Qed.

Lemma remote_call_unfold {A} req (wrap : A → Reply) f (w : World) :
  remote_call req wrap f w = after_call w req wrap (f (remote w)).
Proof. unfold remote_call, after_call. by destruct (f (remote w)). Qed.

Lemma get_range_ids_only_unfold (self : Index) (document_class : option DocClass)
    (kwargs : gmap string PyObject) (w : World) :
  obj_truthy (default (ObjValue VNone) (kwargs !! "ids_only")) = true →
  get_range self document_class kwargs w =
  let answer := api_get_range (_index self) kwargs (remote w) in
  (match answer.1 with
   | Ok page => Ok (range_document <$> page)
   | Raise e => Raise e
   end,
   {| remote := answer.2;
      calls := calls w ++ [(ReqGetRange kwargs, reply_of RepPage answer.1)] |}).
Proof.
  intros Hids. unfold Index_get_range. rewrite Hids. cbn [negb andb].
  unfold io_bind. rewrite remote_call_unfold. unfold after_call.
  destruct (api_get_range _ _ _) as [[page|e] s]; [|done]. cbn.
  reflexivity.
Qed.

(** C1 (the code as it is). The guard of [get_range]: with [ids_only]
    false the call raises the configuration error when a [document_class]
    IS given, before any remote call; without a [document_class] it raises
    nothing of its own, queries the remote index and builds a document
    from [None] for each wire document of the page. *)
Theorem get_range_guard (self : Index) (kwargs : gmap string PyObject) (w : World) :
  obj_truthy (default (ObjValue VNone) (kwargs !! "ids_only")) = false →
  (∀ cls, ∃ msg, get_range self (Some cls) kwargs w = (Raise (ValueError msg), w)) ∧
  get_range self None kwargs w =
  let answer := api_get_range (_index self) kwargs (remote w) in
  (match answer.1 with
   | Ok page =>
       mapM_result (λ doc, ObjDocument <$> construct_document None doc) page
   | Raise e => Raise e
   end,
   {| remote := answer.2;
      calls := calls w ++ [(ReqGetRange kwargs, reply_of RepPage answer.1)] |}).
Proof.
  intros Hids. unfold Index_get_range. rewrite Hids. split.
  - intros cls. by eexists.
  - rewrite (bool_decide_eq_false_2 (is_Some None)) by apply is_Some_None.
    cbn [negb andb]. unfold io_bind.
    rewrite remote_call_unfold. unfold after_call.
    by destruct (api_get_range _ _ _) as [[page|e] s].
Qed.

(** C8. With [ids_only] true, whatever [document_class] is, [get_range]
    makes one remote call with its keywords and answers with one
    [RangeDocument] per wire document of the page, in the order of the
    page; a failure of the remote call is passed on. The [RangeDocument]
    of a wire document has the attribute [doc_id], which is the id of the
    wire document, and no other attribute. *)
Theorem get_range_ids_only (self : Index) (document_class : option DocClass)
    (kwargs : gmap string PyObject) (w : World) :
  obj_truthy (default (ObjValue VNone) (kwargs !! "ids_only")) = true →
  (let answer := api_get_range (_index self) kwargs (remote w) in
   get_range self document_class kwargs w =
   (match answer.1 with
    | Ok page => Ok (range_document <$> page)
    | Raise e => Raise e
    end,
    {| remote := answer.2;
       calls := calls w ++ [(ReqGetRange kwargs, reply_of RepPage answer.1)] |})) ∧
  (∀ doc, range_document doc = ObjValue (VRangeDocument {["doc_id" := wd_doc_id doc]})) ∧
  (∀ doc attr,
     obj_getattr (range_document doc) attr =
     if decide (attr = "doc_id") then Ok (wd_doc_id doc)
     else Raise (AttributeError attr)).
Proof.
  intros Hids. split; [by apply get_range_ids_only_unfold|]. split; [done|].
  intros doc attr. unfold range_document. cbn [obj_getattr py_getattr].
  case_decide as Hattr.
  - subst attr. by rewrite lookup_singleton_eq.
  - by rewrite lookup_singleton_ne.
Qed.

(** C10. The deprecated methods are their replacements: [add] is [put],
    [remove] is [delete] and [list_documents] is [get_range], on every
    input and in every state of the remote index. *)
Theorem deprecated_aliases (self : Index) (documents : Documents)
    (doc_ids : list Value) (document_class : option DocClass)
    (kwargs : gmap string PyObject) (w : World) :
  Index_add api_put self documents w = Index_put api_put self documents w ∧
  Index_remove api_delete self doc_ids w = Index_delete api_delete self doc_ids w ∧
  Index_list_documents api_get_range construct_document self document_class kwargs w =
  get_range self document_class kwargs w.
Proof. by repeat split. Qed.

(** ** [put] *)

Lemma meta_items_Ok (d : Document) (items : list (string * Field)) :
  meta_items d = Ok items ↔
  getattribute d "_meta" = Ok VOptions ∧ items = map_to_list (cls_fields (doc_class d)).
Proof.
  unfold meta_items. destruct (getattribute d "_meta") as [meta|e]; simpl.
  - destruct meta as [| | | | | |rd]; simpl;
      try (split; [done|by intros [[=] _]]).
    + split; [by intros [= <-]|by intros [_ ->]].
    + destruct (rd !! "fields"); simpl; (split; [done|by intros [[=] _]]).
  - split; [done|by intros [[=] _]].
Qed.

Lemma get_fields_Ok (d : Document) (fields : list WireField) :
  get_fields d = Ok fields ↔
  getattribute d "_meta" = Ok VOptions ∧
  Forall2 (wire_field_of d) (map_to_list (cls_fields (doc_class d))) fields.
Proof.
  unfold get_fields.
  destruct (meta_items d) as [items|e] eqn:Hitems; simpl.
  - apply meta_items_Ok in Hitems as [Hmeta ->]. rewrite mapM_result_Ok.
    split; [intros H; split; [done|]|intros [_ H]];
      (eapply Forall2_impl; [exact H|]); intros [n f] wf; unfold wire_field_of; simpl.
    + destruct (FIELD_MAP (field_class f)) as [ctor|]; simpl; [|done].
      destruct (getattr_default_None d n) as [v|]; simpl; [|done].
      destruct (to_search_value f v) as [val|] eqn:Hval; simpl; [|done].
      intros [= <-]. simpl. eauto.
    + intros (Hname & -> & v & -> & Hval). simpl. rewrite Hval. simpl.
      destruct wf; simpl in *. by subst.
  - split; [done|]. intros [Hmeta _].
    assert (meta_items d = Ok (map_to_list (cls_fields (doc_class d)))) as Hok
      by by apply meta_items_Ok.
    congruence.
Qed.

Lemma search_document_Ok (d : Document) (wd : WireDoc) :
  search_document d = Ok wd ↔ wire_document_of d wd.
Proof.
  unfold search_document, wire_document_of.
  destruct (getattribute d "doc_id") as [doc_id|e]; simpl;
    [|split; [done|by intros (_ & [=] & _)]].
  destruct (get_fields d) as [fields|e] eqn:Hfields; simpl.
  - apply get_fields_Ok in Hfields as [Hmeta Hfields]. split.
    + by intros [= <-].
    + intros (_ & [= ->] & Hwd). destruct wd as [doc_id fields']; simpl in *.
      f_equal. f_equal.
      assert (get_fields d = Ok fields') as H1 by by apply get_fields_Ok.
      assert (get_fields d = Ok fields) as H2 by by apply get_fields_Ok.
      congruence.
  - split; [done|]. intros (Hmeta & _ & Hwd).
    assert (get_fields d = Ok (wd_fields wd)) as H1 by by apply get_fields_Ok.
    congruence.
Qed.

Lemma wire_field_names (d : Document) (items : list (string * Field))
    (fields : list WireField) :
  Forall2 (wire_field_of d) items fields → wf_name <$> fields = items.*1.
Proof.
  induction 1 as [|nf wf items fields [Hname _] _ IH]; [done|].
  by rewrite !fmap_cons, Hname, IH.
Qed.

Lemma search_documents_Ok (ds : list Document) (wires : list WireDoc) :
  mapM_result search_document ds = Ok wires ↔ Forall2 wire_document_of ds wires.
Proof.
  rewrite mapM_result_Ok.
  split; intros H; (eapply Forall2_impl; [exact H|]); intros d wd;
    apply search_document_Ok.
Qed.

(** C9 (as amended). [put] takes one document as the batch of that
    document. When every document of the batch has a wire document, [put]
    makes exactly one remote call, with these wire documents in the order
    of the batch, and returns its answer; otherwise it raises without
    calling the remote index. The wire document of [d] carries the observed
    [doc_id] of [d] and exactly one field per entry of the schema: the
    names of its fields are without repetition the names of the schema,
    and the field named [n] is of the API class that [FIELD_MAP] lists for
    the class of [f] and holds [f.to_search_value] of the observed
    attribute [n], which for a stored value is [f.to_python] of it. *)
Theorem put_spec (self : Index) (documents : Documents) (w : World) :
  (∀ d, Index_put api_put self (Single d) w = Index_put api_put self (Batch [d]) w) ∧
  (∀ wires, Forall2 wire_document_of (batch_of documents) wires →
     Index_put api_put self documents w =
     after_call w (ReqPut wires) RepPut (api_put (_index self) wires (remote w))) ∧
  ((∀ wires, ¬ Forall2 wire_document_of (batch_of documents) wires) →
     ∃ e, Index_put api_put self documents w = (Raise e, w)) ∧
  (∀ d wd, wire_document_of d wd →
     NoDup (wf_name <$> wd_fields wd) ∧
     length (wd_fields wd) = size (cls_fields (doc_class d)) ∧
     (∀ n, n ∈ wf_name <$> wd_fields wd ↔ is_Some (cls_fields (doc_class d) !! n)) ∧
     (∀ wf, wf ∈ wd_fields wd →
        ∃ f v, cls_fields (doc_class d) !! wf_name wf = Some f ∧
               FIELD_MAP (field_class f) = Ok (wf_class wf) ∧
               getattr_default_None d (wf_name wf) = Ok v ∧
               to_search_value f v = Ok (wf_value wf) ∧
               (∀ stored, meta_bound d → doc_dict d !! wf_name wf = Some stored →
                  to_python f stored = Ok v ∨
                  (∃ a, to_python f stored = Raise (AttributeError a)) ∧ v = VNone))).
Proof.
  split; [done|]. split; [|split].
  - intros wires Hwires. unfold Index_put, io_bind, io_lift.
    fold (batch_of documents).
    apply search_documents_Ok in Hwires. rewrite Hwires.
    apply remote_call_unfold.
  - intros Hnone. unfold Index_put, io_bind, io_lift. fold (batch_of documents).
    destruct (mapM_result search_document (batch_of documents)) as [wires|e] eqn:Hm;
      [|by exists e].
    destruct (Hnone wires). by apply search_documents_Ok.
  - intros d wd (Hmeta & Hid & Hfields).
    pose proof (wire_field_names _ _ _ Hfields) as Hnames.
    split; [|split; [|split]].
    + rewrite Hnames. apply NoDup_fst_map_to_list.
    + rewrite <- (Forall2_length _ _ _ Hfields). apply length_map_to_list.
    + intros n. rewrite Hnames, list_elem_of_fmap. split.
      * intros ([m f] & -> & Hin). apply elem_of_map_to_list in Hin. by exists f.
      * intros [f Hf]. exists (n, f). split; [done|]. by apply elem_of_map_to_list.
    + intros wf [i Hi]%list_elem_of_lookup.
      destruct (Forall2_lookup_r _ _ _ _ _ Hfields Hi)
        as ([n f] & Hin & Hname & Hctor & v & Hv & Hval).
      apply list_elem_of_lookup_2, elem_of_map_to_list in Hin.
      simpl in *. rewrite Hname. exists f, v. repeat (split; [done|]).
      intros stored [Hmeta' _] Hstored.
      unfold getattr_default_None in Hv.
      rewrite getattribute_unfold in Hv by done.
      unfold object_getattribute in Hv. rewrite Hstored in Hv. simpl in Hv.
      rewrite Hin in Hv.
      destruct (to_python f stored) as [a|[]]; try by left.
      right. split; [by eexists|congruence].
Qed.

(** ** [purge] *)

Lemma purge_step_fetch cursor page :
  purge_step (FETCHING cursor) (ReqGetRange (fetch_kwargs cursor), RepPage page)
    (after_fetch page).
Proof. destruct page; [apply step_fetch_empty|by apply step_fetch_page]. Qed.

Lemma fetch_kwargs_ids_only cursor :
  obj_truthy (default (ObjValue VNone) (fetch_kwargs cursor !! "ids_only")) = true.
Proof. by destruct cursor. Qed.

Lemma range_documents_doc_ids (page : list WireDoc) :
  mapM_result (λ d, obj_getattr d "doc_id") (range_document <$> page) =
  Ok (wd_doc_id <$> page).
Proof.
  induction page as [|doc page IH]; [done|].
  rewrite fmap_cons. cbn [mapM_result]. rewrite IH.
  unfold range_document at 1. cbn. by rewrite lookup_singleton_eq.
Qed.

Lemma purge_loop_unfold (fuel : nat) (self : Index) (page : list WireDoc) (w : World) :
  purge_loop api_get_range api_delete construct_document fuel self
    (range_document <$> page) w =
  match last page with
  | None => (Ok (Some tt), w)
  | Some doc =>
      match fuel with
      | O => (Ok None, w)
      | S fuel' =>
          let deleted :=
            api_delete (_index self) (wd_doc_id <$> page) (remote w) in
          let w1 := {| remote := deleted.2;
                       calls := calls w ++ [(ReqDelete (wd_doc_id <$> page),
                                             reply_of RepDelete deleted.1)] |} in
          match deleted.1 with
          | Raise e => (Raise e, w1)
          | Ok _ =>
              let kwargs := fetch_kwargs (Some doc) in
              let fetched := api_get_range (_index self) kwargs (remote w1) in
              let w2 := {| remote := fetched.2;
                           calls := calls w1 ++ [(ReqGetRange kwargs,
                                                  reply_of RepPage fetched.1)] |} in
              match fetched.1 with
              | Raise e => (Raise e, w2)
              | Ok page' =>
                  purge_loop api_get_range api_delete construct_document fuel' self
                    (range_document <$> page') w2
              end
          end
      end
  end.
Proof.
  destruct fuel as [|fuel']; cbn [purge_loop]; rewrite fmap_last;
    destruct (last page) as [doc|]; try reflexivity.
  cbn [fmap option_fmap option_map].
  unfold io_bind at 1, io_lift. rewrite range_documents_doc_ids.
  unfold io_bind at 1, Index_delete.
  rewrite remote_call_unfold. unfold after_call.
  destruct (api_delete _ _ _) as [[r|e] s1]; cbn [fst snd]; [|done].
  unfold io_bind at 1.
  rewrite (get_range_ids_only_unfold _ _ _ _ (fetch_kwargs_ids_only (Some doc))).
  cbn [fetch_kwargs remote calls].
  by destruct (api_get_range _ _ _) as [[page'|e] s2].
Qed.

Lemma purge_loop_run (self : Index) (fuel : nat) :
  ∀ (page : list WireDoc) (w : World),
  let run := purge_loop api_get_range api_delete construct_document fuel self
               (range_document <$> page) w in
  ∃ path st tail,
    purge_run (after_fetch page) path st ∧
    calls run.2 = calls w ++ path ++ tail ∧
    purge_outcome run.1 st tail ∧
    (run.1 = Ok None → length (List.filter is_delete path) = fuel).
Proof.
  induction fuel as [|fuel IH]; intros page w run; subst run;
    rewrite purge_loop_unfold; destruct (last page) as [doc|] eqn:Hlast.
  - exists [], (after_fetch page), []. rewrite !app_nil_r.
    split; [constructor|]. split; [done|]. split; [|done].
    destruct page; [done|]. split; [by eexists|done].
  - apply last_None in Hlast as ->. exists [], DONE, []. rewrite !app_nil_r.
    by repeat split; try constructor.
  - assert (page ≠ []) as Hne by (by intros ->).
    assert (after_fetch page = DELETING page) as -> by (by destruct page).
    cbn zeta.
    destruct (api_delete _ _ _) as [[r|e] s1]; cbn [fst snd reply_of].
    2:{ exists [], (DELETING page), [(ReqDelete (wd_doc_id <$> page), RepError e)].
        split; [constructor|]. split; [done|]. split; [|done].
        by eexists. }
    cbn [remote calls].
    destruct (api_get_range _ _ _) as [[page'|e] s2]; cbn [fst snd reply_of].
    2:{ exists [(ReqDelete (wd_doc_id <$> page), RepDelete r)],
          (FETCHING (Some doc)),
          [(ReqGetRange (fetch_kwargs (Some doc)), RepError e)].
        split; [|split; [|split; [|done]]].
        - econstructor; [|constructor]. rewrite <- Hlast. by constructor.
        - by rewrite <- !app_assoc.
        - by eexists. }
    match goal with |- context [purge_loop _ _ _ _ _ _ ?w2] =>
      destruct (IH page' w2) as (path & st & tail & Hrun & Hcalls & Hout & Hfuel)
    end.
    exists ((ReqDelete (wd_doc_id <$> page), RepDelete r) ::
            (ReqGetRange (fetch_kwargs (Some doc)), RepPage page') :: path), st, tail.
    split; [|split; [|split]].
    + econstructor; [by constructor|]. rewrite Hlast.
      econstructor; [apply purge_step_fetch|done].
    + rewrite Hcalls. cbn [calls]. by rewrite <- !app_assoc.
    + done.
    + intros Hnone. cbn [List.filter is_delete fst length]. f_equal. by apply Hfuel.
  - apply last_None in Hlast as ->. exists [], DONE, []. rewrite !app_nil_r.
    by repeat split; try constructor.
Qed.

Lemma purge_run_spec (fuel : nat) (self : Index) (w : World) :
  let run := purge fuel self w in
  ∃ path st tail,
    purge_run (FETCHING None) path st ∧
    calls run.2 = calls w ++ path ++ tail ∧
    purge_outcome run.1 st tail ∧
    (run.1 = Ok None → length (List.filter is_delete path) = fuel).
Proof.
  intros run. subst run. unfold Index_purge, io_bind.
  rewrite (get_range_ids_only_unfold _ _ _ _ (fetch_kwargs_ids_only None)).
  cbn zeta. destruct (api_get_range _ _ _) as [[page|e] s1]; cbn [fst snd reply_of].
  - match goal with |- context [purge_loop _ _ _ _ _ _ ?w1] =>
      destruct (purge_loop_run self fuel page w1)
        as (path & st & tail & Hrun & Hcalls & Hout & Hfuel)
    end.
    exists ((ReqGetRange (fetch_kwargs None), RepPage page) :: path), st, tail.
    split; [|split; [|split]]; [| |done|done].
    + econstructor; [apply purge_step_fetch|done].
    + rewrite Hcalls. cbn [calls]. by rewrite <- !app_assoc.
  - exists [], (FETCHING None), [(ReqGetRange (fetch_kwargs None), RepError e)].
    split; [constructor|]. split; [done|]. split; [|done]. by eexists.
Qed.

(** *** The machine *)

Lemma purge_step_state_ok st call st' : purge_step st call st' → state_ok st'.
Proof. by destruct 1. Qed.

Lemma purge_run_state_ok st path st' :
  purge_run st path st' → state_ok st → state_ok st'.
Proof.
  induction 1 as [|st call st' path st'' Hstep _ IH]; [done|].
  intros _. apply IH. by eapply purge_step_state_ok.
Qed.

Lemma purge_run_DONE path st : purge_run DONE path st → path = [] ∧ st = DONE.
Proof. inversion 1 as [|? ? ? ? ? Hstep]; [done|]. inversion Hstep. Qed.

Lemma purge_run_deletes st path st' :
  purge_run st path st' →
  ∀ ids rep, (ReqDelete ids, rep) ∈ path → ids ≠ [].
Proof.
  induction 1 as [|st call st' path st'' Hstep _ IH]; intros ids rep Hin.
  - by apply elem_of_nil in Hin.
  - apply elem_of_cons in Hin as [Heq|Hin]; [|by eapply IH].
    destruct Hstep as [| |page r Hne]; try discriminate.
    injection Heq as -> _. by destruct page.
Qed.

Lemma purge_run_done_last st path st' :
  purge_run st path st' → st ≠ DONE →
  st' = DONE ↔ ∃ kwargs, last path = Some (ReqGetRange kwargs, RepPage []).
Proof.
  induction 1 as [st|st call st' path st'' Hstep Hrun IH]; intros Hst.
  - split; [done|]. by intros [kwargs ?].
  - destruct path as [|call' path].
    + inversion Hrun; subst. cbn [last]. destruct Hstep as [c|c page Hne|page r Hne].
      * split; [by eexists|done].
      * split; [done|]. intros [kwargs [= _ ->]]. done.
      * split; [done|]. by intros [kwargs [=]].
    + assert (st' ≠ DONE) as Hst'.
      { intros ->. by apply purge_run_DONE in Hrun as [? _]. }
      rewrite (IH Hst'). done.
Qed.

Lemma purge_run_cursors st path st' :
  purge_run st path st' →
  ∀ r tail, purge_outcome r st' tail → requery_cursors (path ++ tail).
Proof.
  induction 1 as [st|st call st' path st'' Hstep Hrun IH]; intros r tail Hout.
  - destruct r as [[u|]|e]; cbn in Hout.
    + by destruct Hout as [_ ->].
    + by destruct Hout as [_ ->].
    + destruct Hout as (req & _ & ->). cbn. by destruct req.
  - cbn [app requery_cursors]. split; [|by eapply IH].
    destruct Hstep as [c|c page Hne|page d Hne]; cbn [fst]; try done.
    assert (∃ doc, last page = Some doc) as [doc Hdoc].
    { destruct (last page) eqn:Hl; [by eexists|]. by apply last_None in Hl. }
    assert (∃ rep rest, path ++ tail =
              (ReqGetRange (fetch_kwargs (Some doc)), rep) :: rest) as (rep & rest & ->).
    { rewrite Hdoc in Hrun. inversion Hrun as [|? ? ? ? ? Hstep' Hrun']; subst.
      - destruct r as [[u|]|e]; cbn in Hout.
        + by destruct Hout as [[=] _].
        + by destruct Hout as [[? [=]] _].
        + destruct Hout as (req & -> & ->). by eexists _, _.
      - inversion Hstep'; subst; by eexists _, _. }
    exists (wd_doc_id doc). rewrite fmap_last, Hdoc. by repeat split.
Qed.

Lemma purge_loop_more_fuel (self : Index) (fuel extra : nat) :
  ∀ (docs : list PyObject) (w : World),
  let loop := purge_loop api_get_range api_delete construct_document in
  (loop fuel self docs w).1 ≠ Ok None →
  loop (fuel + extra) self docs w = loop fuel self docs w.
Proof.
  induction fuel as [|fuel IH]; intros docs w loop; subst loop.
  - by destruct extra; cbn [purge_loop Nat.add]; destruct (last docs).
  - cbn [purge_loop Nat.add]. destruct (last docs) as [last_doc|]; [|done].
    unfold io_bind.
    destruct (io_lift _ w) as [[ids|e] w0]; [|done].
    destruct (Index_delete _ _ _ w0) as [[r|e] w1]; [|done].
    destruct (get_range _ _ _ w1) as [[docs'|e] w2]; [|done].
    apply IH.
Qed.

(** C7. Every execution of [purge] follows the machine: the answered calls
    it makes form a path from [FETCHING], followed by the one failed call
    when it raises; [delete] is never called with an empty list of ids,
    each deletion being that of the non-empty page just fetched; [purge]
    returns exactly when its last call is a fetch that answered with an
    empty page. When the loop is cut after [fuel] iterations it has made
    [fuel] deletions, and a result reached with some fuel is the result
    with any more fuel. *)
Theorem purge_state_machine (fuel : nat) (self : Index) (w : World) :
  let run := purge fuel self w in
  ∃ path st tail,
    calls run.2 = calls w ++ path ++ tail ∧
    purge_run (FETCHING None) path st ∧
    purge_outcome run.1 st tail ∧
    (∀ ids rep, (ReqDelete ids, rep) ∈ path ++ tail → ids ≠ []) ∧
    (run.1 = Ok (Some tt) ↔
     ∃ kwargs, last (path ++ tail) = Some (ReqGetRange kwargs, RepPage [])) ∧
    (run.1 = Ok None → length (List.filter is_delete path) = fuel) ∧
    (run.1 ≠ Ok None → ∀ extra, purge (fuel + extra) self w = run).
Proof.
  intros run.
  destruct (purge_run_spec fuel self w)
    as (path & st & tail & Hrun & Hcalls & Hout & Hfuel).
  fold run in Hcalls, Hout, Hfuel.
  exists path, st, tail. repeat (split; [done|]).
  pose proof (purge_run_state_ok _ _ _ Hrun I) as Hok.
  split; [|split; [|split; [done|]]].
  - intros ids rep [Hin|Hin]%elem_of_app; [by eapply purge_run_deletes|].
    destruct run.1 as [[u|]|e]; cbn in Hout.
    + destruct Hout as [_ ->]. by apply elem_of_nil in Hin.
    + destruct Hout as [_ ->]. by apply elem_of_nil in Hin.
    + destruct Hout as (req & Hreq & ->).
      apply list_elem_of_singleton in Hin. injection Hin as <- _.
      destruct st as [c|page|]; cbn in Hreq; try done.
      injection Hreq as ->. by destruct page.
  - pose proof (purge_run_done_last _ _ _ Hrun ltac:(done)) as Hdone.
    destruct run.1 as [[[]|]|e]; cbn in Hout.
    + destruct Hout as [-> ->]. rewrite app_nil_r. split; [intros _|done].
      by apply Hdone.
    + destruct Hout as [[page ->] ->]. rewrite app_nil_r. split; [done|].
      intros Hlast. by apply Hdone in Hlast.
    + destruct Hout as (req & _ & ->). split; [done|].
      rewrite last_snoc. by intros [kwargs [=]].
  - intros Hsome extra. subst run. unfold Index_purge, io_bind in *.
    destruct (get_range self None first_page_kwargs w) as [[docs|e] w1]; [|done].
    by apply purge_loop_more_fuel.
Qed.

(** C2 (the code as it is). The cursor of the re-query of [purge]: in
    every execution, a fetch that follows a deletion is passed, as [start_id], the
    [RangeDocument] object that wraps the last id deleted, together with
    [include_start_object=False] and [ids_only=True]. *)
Theorem purge_requery_cursor (fuel : nat) (self : Index) (w : World) :
  ∃ new, calls (purge fuel self w).2 = calls w ++ new ∧ requery_cursors new.
Proof.
  destruct (purge_run_spec fuel self w)
    as (path & st & tail & Hrun & Hcalls & Hout & _).
  exists (path ++ tail). split; [done|]. by eapply purge_run_cursors.
Qed.

End IndexProperties.

(** * The theorems at work *)

Lemma Flagged_init :
  DocumentModel_init plain_repr Flagged
    (<["done" := VBool true]> {["doc_id" := VUnicode [97%N]]}) = Ok flagged_a.
Proof. vm_compute. reflexivity. Qed.

Lemma flagged_a_meta_bound : meta_bound flagged_a.
Proof. split; vm_compute; reflexivity. Defined.

(** The schema of [Task(Note, Flagged)]: every field name of [Flagged] is
    there, [done] is the field of the class body, and [title], declared by
    both bases, is the one of [Note], the leftmost. The schema of
    [Review(Draft, Checked)]: [status] is the text field that [Draft]
    inherits from [Entry], not the Boolean field by which [Checked]
    overrides it. *)
Lemma schema_inheritance_witness :
  DocBase Flagged ∈ [DocBase Note; DocBase Flagged] ∧
  (∀ n, is_Some (cls_fields Flagged !! n) → is_Some (cls_fields Task !! n)) ∧
  cls_fields Task !! "done" = Some text_field ∧
  cls_fields Task !! "title" = Some text_field ∧
  DocBase Draft ∈ [DocBase Draft; DocBase Checked] ∧
  cls_bound Entry = [("status", text_field)] ∧
  cls_bound Draft = [] ∧
  cls_bound Checked = [("status", boolean_field)] ∧
  cls_bound Review = [] ∧
  cls_fields Checked !! "status" = Some boolean_field ∧
  cls_fields Review !! "status" = Some text_field ∧
  text_field ≠ boolean_field.
Proof.
  assert (DocBase Flagged ∈ [DocBase Note; DocBase Flagged]) as HF
    by (apply list_elem_of_further, list_elem_of_here).
  assert (DocBase Note ∈ [DocBase Note; DocBase Flagged]) as HN
    by apply list_elem_of_here.
  assert (DocBase Draft ∈ [DocBase Draft; DocBase Checked]) as HD
    by apply list_elem_of_here.
  split; [exact HF|].
  destruct (schema_inheritance "Task" [DocBase Note; DocBase Flagged]
              (<["done" := AttrField text_field]> ∅) Flagged HF)
    as (Hall & Hown & _ & _).
  destruct (schema_inheritance "Task" [DocBase Note; DocBase Flagged]
              (<["done" := AttrField text_field]> ∅) Note HN)
    as (_ & _ & Hleft & _).
  destruct (schema_inheritance "Review" [DocBase Draft; DocBase Checked] ∅ Draft HD)
    as (_ & _ & _ & _ & Hdiamond).
  split; [exact Hall|]. split; [by apply Hown|].
  split.
  { apply (Hleft [] [DocBase Flagged]); [done| |by intros P ?%elem_of_nil|done].
    intros f'. vm_compute. discriminate. }
  split; [exact HD|].
  split; [vm_compute; reflexivity|]. split; [vm_compute; reflexivity|].
  split; [vm_compute; reflexivity|]. split; [vm_compute; reflexivity|].
  destruct (Hdiamond [DocBase Checked] Entry "Draft" ∅ Checked "Checked"
              (<["status" := AttrField boolean_field]> ∅)
              "status" text_field boolean_field) as [HC HR].
  - reflexivity.
  - reflexivity.
  - apply list_elem_of_here.
  - reflexivity.
  - vm_compute. reflexivity.
  - intros f'. vm_compute. discriminate.
  - vm_compute. reflexivity.
  - intros f'. vm_compute. discriminate.
  - split; [exact HC|]. split; [exact HR|].
    intros Heq. apply (f_equal field_class) in Heq. discriminate.
Defined.

(** A boolean written to the Boolean field [done] is stored as the atom
    tag and read back as the boolean. *)
Lemma set_then_get_witness :
  meta_bound flagged_a ∧ "done" ≠ "_meta" ∧
  ∃ self', setattr flagged_a "done" (VBool false) = Ok self' ∧
    doc_class self' = doc_class flagged_a ∧
    doc_dict self' = <["done" := VStr "0"]> (doc_dict flagged_a) ∧
    getattribute self' "done" = Ok (VBool false).
Proof.
  assert ("done" ≠ "_meta") as Hne by discriminate.
  split; [exact flagged_a_meta_bound|]. split; [exact Hne|].
  exact (proj2 (set_then_get flagged_a "done" (VBool false)
                  flagged_a_meta_bound Hne)).
Defined.

(** Writing the attribute [_meta] on a freshly built document succeeds,
    and reading it back raises instead of returning the value written. *)
Lemma set_then_get_counterexample :
  DocumentModel_init plain_repr Flagged
    (<["done" := VBool true]> {["doc_id" := VUnicode [97%N]]}) = Ok flagged_a ∧
  cls_fields (doc_class flagged_a) !! "_meta" = None ∧
  ∃ self', setattr flagged_a "_meta" (VInt 5) = Ok self' ∧
    getattribute self' "_meta" = Raise (AttributeError "fields") ∧
    getattribute self' "_meta" ≠ Ok (VInt 5).
Proof.
  split; [exact Flagged_init|]. split; [vm_compute; reflexivity|].
  eexists. split; [vm_compute; reflexivity|].
  split; [vm_compute; reflexivity|]. vm_compute. discriminate.
Qed.

(** [Flagged(done=True, doc_id=u'a')]: [done] holds the atom tag, the
    missing [title] holds the converted [None], [doc_id] holds the bytes. *)
Lemma init_spec_witness :
  cls_namespace Flagged !! "_meta" = Some VOptions ∧
  cls_fields Flagged !! "_meta" = None ∧
  cls_fields Flagged !! "doc_id" = None ∧
  ∃ self,
    DocumentModel_init plain_repr Flagged
      (<["done" := VBool true]> {["doc_id" := VUnicode [97%N]]}) = Ok self ∧
    doc_dict self !! "done" = Some (VStr "1") ∧
    doc_dict self !! "title" = Some VNone ∧
    doc_dict self !! "doc_id" = Some (VStr "a").
Proof.
  assert (cls_namespace Flagged !! "_meta" = Some VOptions) as Hns
    by (vm_compute; reflexivity).
  assert (cls_fields Flagged !! "_meta" = None) as Hmeta
    by (vm_compute; reflexivity).
  assert (cls_fields Flagged !! "doc_id" = None) as Hid
    by (vm_compute; reflexivity).
  repeat (split; [assumption|]).
  pose proof (init_spec plain_repr Flagged
    (<["done" := VBool true]> {["doc_id" := VUnicode [97%N]]}) Hns Hmeta Hid) as H.
  rewrite Flagged_init in H. destruct H as (_ & _ & Hfields & (u & Hu & Hdoc) & _).
  exists flagged_a. split; [exact Flagged_init|]. split; [|split].
  - destruct (Hfields "done" boolean_field) as (w & Hw & ->);
      [vm_compute; reflexivity|].
    vm_compute in Hw. congruence.
  - destruct (Hfields "title" boolean_field) as (w & Hw & ->);
      [vm_compute; reflexivity|].
    vm_compute in Hw. congruence.
  - rewrite Hdoc. vm_compute in Hu. injection Hu as <-. vm_compute. reflexivity.
Defined.

(** With a schema field named [doc_id], [Tagged(doc_id=u'x')] ends with
    [doc_id] holding [None]: the keyword is consumed by the field and its
    value is then overwritten; with a schema field named [_meta] no
    instance can be built. *)
Lemma init_counterexample :
  (∃ self,
     DocumentModel_init plain_repr Tagged {["doc_id" := VUnicode [120%N]]} = Ok self ∧
     cls_fields Tagged !! "doc_id" = Some text_field ∧
     to_search_value text_field (VUnicode [120%N]) = Ok (VUnicode [120%N]) ∧
     utf8_encode [120%N] = "x" ∧
     doc_dict self !! "doc_id" = Some VNone) ∧
  DocumentModel_init plain_repr Shadow ∅ = Raise TypeError.
Proof.
  split; [|vm_compute; reflexivity].
  eexists. split; [vm_compute; reflexivity|].
  repeat split; vm_compute; reflexivity.
Qed.

(** [get_range()] on an empty index returns the empty list without any
    error, and [get_range(document_class=Note)] raises before the remote
    index is queried. *)
Lemma get_range_guard_witness :
  obj_truthy (default (ObjValue VNone) ((∅ : gmap string PyObject) !! "ids_only")) = false ∧
  Index_get_range toy_get_range toy_construct_document toy_index None ∅ (toy_world []) =
    (Ok [], {| remote := []; calls := [(ReqGetRange ∅, RepPage [])] |}) ∧
  ∃ msg,
    Index_get_range toy_get_range toy_construct_document toy_index (Some Note) ∅
      (toy_world [])
    = (Raise (ValueError msg), toy_world []).
Proof.
  assert (obj_truthy (default (ObjValue VNone)
            ((∅ : gmap string PyObject) !! "ids_only")) = false) as Hids
    by reflexivity.
  split; [exact Hids|].
  destruct (get_range_guard (PutResult := list Value) (DeleteResult := unit)
              toy_get_range toy_construct_document toy_index ∅ (toy_world []) Hids)
    as [Hraise Hnone].
  split; [by rewrite Hnone|]. exact (Hraise Note).
Defined.

(** An id-only page of the index holding [a], [b] and [c]. *)
Lemma get_range_ids_only_witness :
  obj_truthy (default (ObjValue VNone)
    ((first_page_kwargs : gmap string PyObject) !! "ids_only")) = true ∧
  Index_get_range toy_get_range toy_construct_document toy_index (Some Note)
    first_page_kwargs (toy_world ["a"; "b"; "c"]) =
  (Ok [ObjValue (VRangeDocument {["doc_id" := VStr "a"]});
       ObjValue (VRangeDocument {["doc_id" := VStr "b"]})],
   {| remote := ["a"; "b"; "c"];
      calls := [(ReqGetRange first_page_kwargs,
                 RepPage [ {| wd_doc_id := VStr "a"; wd_fields := [] |};
                           {| wd_doc_id := VStr "b"; wd_fields := [] |} ])] |}).
Proof.
  assert (obj_truthy (default (ObjValue VNone)
    ((first_page_kwargs : gmap string PyObject) !! "ids_only")) = true) as Hids
    by reflexivity.
  split; [exact Hids|].
  exact (proj1 (get_range_ids_only (PutResult := list Value) (DeleteResult := unit)
                  toy_get_range toy_construct_document toy_index (Some Note)
                  first_page_kwargs (toy_world ["a"; "b"; "c"]) Hids)).
Defined.

(** The four names of the specification against the toy search API. *)
Lemma Index_init_name_witness :
  Index_init toy_Index (VStr "good-index") =
    Ok {| Index_name := VStr "good-index"; _index := "good-index" |} ∧
  (∃ msg, Index_init toy_Index (VStr "") = Raise (AssertionError msg)) ∧
  (∃ msg, Index_init toy_Index (VStr "bad name") = Raise (AssertionError msg)) ∧
  (∃ msg, Index_init toy_Index (VStr "!bad") = Raise (AssertionError msg)) ∧
  (∃ msg, Index_init toy_Index VNone = Raise (AssertionError msg)).
Proof.
  destruct (Index_init_name toy_Index "good-index" [])
    as (Hnone & _ & Hgood & _ & _ & Hempty & Hspace & Hbang & Hok).
  split; [by rewrite (Hgood Hok)|].
  split; [exact (proj1 (proj2 (Index_init_name toy_Index "" [])) Hempty)|].
  split; [exact (proj1 (proj2 (Index_init_name toy_Index "bad name" [])) Hspace)|].
  split; [exact (proj1 (proj2 (Index_init_name toy_Index "!bad" [])) Hbang)|].
  exact Hnone.
Defined.

(** [put] of the single document [flagged_a], and of the batch of it. *)
Lemma put_spec_witness :
  Forall2 wire_document_of [flagged_a] [wire_flagged_a] ∧
  Index_put (DeleteResult := unit) toy_put toy_index (Single flagged_a) (toy_world []) =
    (Ok [VStr "a"],
     {| remote := ["a"];
        calls := [(ReqPut [wire_flagged_a], RepPut [VStr "a"])] |}) ∧
  NoDup (wf_name <$> wd_fields wire_flagged_a) ∧
  length (wd_fields wire_flagged_a) = size (cls_fields Flagged).
Proof.
  assert (Forall2 wire_document_of [flagged_a] [wire_flagged_a]) as Hwire.
  { apply search_documents_Ok. vm_compute. reflexivity. }
  split; [exact Hwire|].
  destruct (put_spec (DeleteResult := unit) toy_put toy_index (Single flagged_a)
              (toy_world [])) as (_ & Hput & _ & Hshape).
  split; [by rewrite (Hput _ Hwire)|].
  apply Forall2_cons_1 in Hwire as [Hwire _].
  destruct (Hshape _ _ Hwire) as (Hnodup & Hlen & _). by split.
Defined.

(** [purge] of the index holding [a], [b] and [c]: two pages are fetched
    and deleted, the third fetch is empty, and nothing remains. *)
Lemma purge_state_machine_witness :
  let run := Index_purge toy_get_range toy_delete toy_construct_document 5
               toy_index (toy_world ["a"; "b"; "c"]) in
  run.1 = Ok (Some tt) ∧ remote run.2 = [] ∧
  purge_run (FETCHING None) (calls run.2) DONE ∧
  length (calls run.2) = 5 ∧
  Index_purge toy_get_range toy_delete toy_construct_document 7
    toy_index (toy_world ["a"; "b"; "c"]) = run.
Proof.
  intros run.
  assert (run.1 = Ok (Some tt)) as Hdone by (vm_compute; reflexivity).
  destruct (purge_state_machine toy_get_range toy_delete toy_construct_document
              5 toy_index (toy_world ["a"; "b"; "c"]))
    as (path & st & tail & Hcalls & Hrun & Hout & _ & _ & _ & Hmore).
  fold run in Hcalls, Hout, Hmore. rewrite Hdone in Hout. destruct Hout as [-> ->].
  rewrite app_nil_r in Hcalls. simpl in Hcalls.
  split; [exact Hdone|]. split; [vm_compute; reflexivity|].
  split; [by rewrite Hcalls|]. split; [vm_compute; reflexivity|].
  apply (Hmore ltac:(by rewrite Hdone) 2).
Defined.

(** [purge] of the index holding [a]: the fetch that follows the deletion
    of [a] is passed the [RangeDocument] as [start_id], not the id. *)
Lemma purge_requery_cursor_example :
  let run := Index_purge toy_get_range toy_delete toy_construct_document 5
               toy_index (toy_world ["a"]) in
  ∃ kwargs : gmap string PyObject,
    calls run.2 !! 1 = Some (ReqDelete [VStr "a"], RepDelete tt) ∧
    calls run.2 !! 2 = Some (ReqGetRange kwargs, RepPage []) ∧
    kwargs !! "start_id" = Some (ObjValue (VRangeDocument {["doc_id" := VStr "a"]})) ∧
    kwargs !! "start_id" ≠ Some (ObjValue (VStr "a")).
Proof.
  intros run. eexists. split; [vm_compute; reflexivity|].
  split; [vm_compute; reflexivity|].
  split; [vm_compute; reflexivity|]. vm_compute. discriminate.
Qed.

(** [put] of a document whose field is of a class that [FIELD_MAP] does not
    list: the document is a regular instance, its attribute converts, and
    [put] raises [KeyError] without building a wire document or calling
    the remote index. *)
Lemma put_counterexample :
  DocumentModel_init plain_repr Labelled
    (<["label" := VStr "x"]> {["doc_id" := VStr "l"]}) = Ok labelled_l ∧
  getattribute labelled_l "doc_id" = Ok (VStr "l") ∧
  (getattribute labelled_l "label" ≫= to_search_value keyword_field) = Ok (VStr "x") ∧
  Index_put (DeleteResult := unit) toy_put toy_index (Single labelled_l) (toy_world []) =
    (Raise KeyError, toy_world []).
Proof. repeat split; vm_compute; reflexivity. Qed.

(** * Further properties *)

(** ** The class the metaclass leaves behind *)

Lemma collect_field_union (init : gmap string Field) (dct : gmap string ClassAttr) :
  map_fold collect_field init dct = omap field_attr dct ∪ init.
Proof.
  apply map_eq. intros n.
  rewrite collect_field_lookup, lookup_union, lookup_omap.
  destruct (dct !! n ≫= field_attr) as [f|]; simpl.
  - by destruct (init !! n).
  - by rewrite (left_id None _).
Qed.

Lemma inherited_namespace_None (bases : list Base) (n : string) :
  (∀ b, b ∈ bases → base_namespace b !! n = None) →
  foldr (λ b ns, base_namespace b ∪ ns) ∅ bases !! n = None.
Proof.
  induction bases as [|b bases IH]; intros Hnone; simpl; [done|].
  apply lookup_union_None. split.
  - apply Hnone. constructor.
  - apply IH. intros b' Hb'. apply Hnone. by constructor.
Qed.

(** X1. In the class the metaclass builds, [_meta] is the [Options] object
    whatever the class body says; an attribute of the body that is not a
    [Field] stays a class attribute; a [Field] of the body is removed from
    the class, so that, unless a base class has an attribute of that name,
    reading it on a fresh instance raises [AttributeError]. *)
Theorem metaclass_namespace (bound : bool) (cname : string) (bases : list Base)
    (dct : gmap string ClassAttr) :
  let B := MetaClass_new bound cname bases dct in
  cls_namespace B !! "_meta" = Some VOptions ∧
  (∀ n v, n ≠ "_meta" → dct !! n = Some (AttrValue v) →
     cls_namespace B !! n = Some v) ∧
  (∀ n f, n ≠ "_meta" → dct !! n = Some (AttrField f) →
     (∀ b, b ∈ bases → base_namespace b !! n = None) →
     cls_namespace B !! n = None ∧
     object_getattribute {| doc_class := B; doc_dict := ∅ |} n =
       Raise (AttributeError n)).
Proof.
  intros B. subst B. split; [apply MetaClass_new_meta|]. split.
  - intros n v Hne Hn. cbn [cls_namespace MetaClass_new].
    rewrite lookup_insert_ne by done.
    apply lookup_union_Some_raw. left. by rewrite lookup_omap, Hn.
  - intros n f Hne Hn Hbases.
    assert (cls_namespace (MetaClass_new bound cname bases dct) !! n = None) as Hns.
    { cbn [cls_namespace MetaClass_new]. rewrite lookup_insert_ne by done.
      apply lookup_union_None. split; [by rewrite lookup_omap, Hn|].
      by apply inherited_namespace_None. }
    split; [done|]. unfold object_getattribute.
    cbn [doc_dict doc_class]. by rewrite lookup_empty, Hns.
Qed.

Lemma omap_map_to_list {A B} (f : A → option B) (m : gmap string A) :
  omap (λ kv : string * A, (kv.1,.) <$> f kv.2) (map_to_list m) ≡ₚ
  map_to_list (omap f m).
Proof.
  induction m as [|i x m Hi IH] using map_ind.
  - by rewrite omap_empty, !map_to_list_empty.
  - rewrite map_to_list_insert by done. cbn [omap list_omap fst snd].
    destruct (f x) as [y|] eqn:Hfx; cbn [fmap option_fmap option_map].
    + erewrite omap_insert_Some by done.
      rewrite map_to_list_insert by by rewrite lookup_omap, Hi.
      by f_equiv.
    + by rewrite omap_insert_None, delete_id by (done || by rewrite lookup_omap, Hi).
Qed.

(** X2. The binding hook [add_to_class] is called for the [Field]
    attributes of the class body and for nothing else, once per name:
    inherited fields are not bound again. *)
Theorem metaclass_binds_body_fields (bound : bool) (cname : string)
    (bases : list Base) (dct : gmap string ClassAttr) :
  let B := MetaClass_new bound cname bases dct in
  (∀ n f, (n, f) ∈ cls_bound B ↔ dct !! n = Some (AttrField f)) ∧
  NoDup (cls_bound B).*1 ∧
  length (cls_bound B) = size (omap field_attr dct).
Proof.
  intros B. subst B. cbn [cls_bound MetaClass_new].
  assert (omap (λ kv : string * ClassAttr, (kv.1,.) <$> field_attr kv.2)
            (map_to_list dct) ≡ₚ map_to_list (omap field_attr dct)) as Hperm.
  { apply omap_map_to_list. }
  split; [|split].
  - intros n f. rewrite Hperm, elem_of_map_to_list, lookup_omap.
    destruct (dct !! n) as [[g|v]|]; simpl; naive_solver.
  - rewrite Hperm. apply NoDup_fst_map_to_list.
  - rewrite Hperm. apply length_map_to_list.
Qed.

Lemma inherited_fields_union_list (bases : list Base) :
  inherited_fields true bases = ⋃ (cls_fields <$> document_bases bases).
Proof.
  rewrite inherited_fields_foldr.
  induction (document_bases bases) as [|p ps IH]; [done|].
  simpl. by rewrite IH.
Qed.

Lemma document_bases_plain (nss : list (gmap string Value)) :
  document_bases (PlainBase <$> nss) = [].
Proof. induction nss as [|ns nss IH]; [done|]. exact IH. Qed.

(** X3. The schema in closed form: the fields of the class body, then,
    for names the body does not declare as fields, the schemas of the
    document bases in the order of declaration. Nothing is inherited while
    the name [DocumentModel] is unbound (the class [DocumentModel] itself)
    or when no base is a document class; along a chain of single
    inheritance the schema of the grandparent comes last. *)
Theorem metaclass_schema_closed_form (cname : string) (bases : list Base)
    (dct : gmap string ClassAttr) :
  cls_fields (MetaClass_new true cname bases dct) =
    omap field_attr dct ∪ ⋃ (cls_fields <$> document_bases bases) ∧
  cls_fields (MetaClass_new false cname bases dct) = omap field_attr dct ∧
  (∀ nss, cls_fields (MetaClass_new true cname (PlainBase <$> nss) dct) =
          omap field_attr dct) ∧
  (∀ A bname dctB,
     cls_fields (MetaClass_new true cname
                   [DocBase (MetaClass_new true bname [DocBase A] dctB)] dct) =
     omap field_attr dct ∪ (omap field_attr dctB ∪ cls_fields A)).
Proof.
  assert (∀ bs, cls_fields (MetaClass_new true cname bs dct) =
                omap field_attr dct ∪ ⋃ (cls_fields <$> document_bases bs)) as Hclosed.
  { intros bs. by rewrite MetaClass_new_fields, collect_field_union,
                          inherited_fields_union_list. }
  split; [apply Hclosed|]. split; [|split].
  - rewrite MetaClass_new_fields, collect_field_union.
    apply (right_id_L ∅ (∪)).
  - intros nss. rewrite Hclosed, document_bases_plain. apply (right_id_L ∅ (∪)).
  - intros A bname dctB. rewrite Hclosed. cbn [document_bases omap list_omap fmap list_fmap].
    rewrite MetaClass_new_fields, collect_field_union, inherited_fields_union_list.
    cbn. by rewrite !(right_id_L ∅ (∪)).
Qed.

(** ** Attribute reads and writes *)

(** X4. Reading an attribute that neither the instance nor its class has
    raises [AttributeError] with the name, also when the name is a schema
    field; [getattr(d, n, None)], as [put] reads attributes, turns this
    into [None]. On an instance with its metadata in place it also turns an
    [AttributeError] raised by the field's [to_python] into [None], and
    passes every other result on. *)
Theorem getattr_default (self : Document) (n : string) :
  (doc_dict self !! n = None → cls_namespace (doc_class self) !! n = None →
     getattribute self n = Raise (AttributeError n) ∧
     getattr_default_None self n = Ok VNone) ∧
  (∀ f w, meta_bound self →
     cls_fields (doc_class self) !! n = Some f → doc_dict self !! n = Some w →
     getattr_default_None self n =
     match to_python f w with
     | Raise (AttributeError _) => Ok VNone
     | r => r
     end).
Proof.
  split.
  - intros Hd Hc.
    assert (getattribute self n = Raise (AttributeError n)) as Hget.
    { unfold getattribute, object_getattribute. by rewrite Hd, Hc. }
    split; [done|]. unfold getattr_default_None. by rewrite Hget.
  - intros f w [Hmeta _] Hf Hw. unfold getattr_default_None.
    rewrite getattribute_unfold by done.
    unfold object_getattribute. rewrite Hw. simpl. by rewrite Hf.
Qed.



(** ** Construction, once more *)

Lemma setattr_Ok_inv (self self' : Document) (a : string) (v : Value) :
  meta_bound self → a ≠ "_meta" → setattr self a v = Ok self' →
  ∃ w, self' = object_setattr self a w ∧ meta_bound (object_setattr self a w).
Proof.
  intros Hb Ha. rewrite setattr_unfold by done.
  destruct (match cls_fields (doc_class self) !! a with
            | Some f => to_search_value f v
            | None => Ok v
            end) as [w|e]; simpl; [|done].
  intros [= <-]. exists w. split; [done|]. by apply meta_bound_setattr.
Qed.



Section ConstructionMore.

Variable object_repr : Value → ustring.




Lemma init_field_unfold (self : Document) (kwargs : gmap string Value)
    (n : string) (f : Field) :
  init_field (self, kwargs) (n, f) =
  (self' ← setattr self n (default VNone (kwargs !! n));
   Ok (self', delete n kwargs)).
Proof. reflexivity. Qed.

Lemma init_fields_irrelevant (k : string) (items : list (string * Field)) :
  k ∉ items.*1 →
  ∀ (self : Document) (kw1 kw2 : gmap string Value),
  (∀ j, j ≠ k → kw1 !! j = kw2 !! j) →
  match foldM init_field (self, kw1) items, foldM init_field (self, kw2) items with
  | Ok st1, Ok st2 => st1.1 = st2.1 ∧ ∀ j, j ≠ k → st1.2 !! j = st2.2 !! j
  | Raise e1, Raise e2 => e1 = e2
  | _, _ => False
  end.
Proof.
  induction items as [|[n f] items IH]; intros Hk self kw1 kw2 Hkw; [done|].
  rewrite fmap_cons in Hk. apply not_elem_of_cons in Hk as [Hkn Hk].
  cbn [foldM]. rewrite !init_field_unfold, (Hkw n) by done.
  destruct (setattr self n (default VNone (kw2 !! n))) as [self1|e];
    cbn [mbind result_bind]; [|done].
  apply IH; [done|]. intros j Hj.
  destruct (decide (n = j)) as [->|Hnj].
  - by rewrite !lookup_delete_eq.
  - rewrite !lookup_delete_ne by done. by apply Hkw.
Qed.

(** X7. A keyword that is neither a schema field name nor [doc_id] is
    ignored by [__init__]: with or without it, construction gives the same
    instance or raises the same exception. *)
Theorem init_ignores_unknown_keyword (cls : DocClass) (kwargs : gmap string Value)
    (k : string) (v : Value) :
  cls_fields cls !! k = None → k ≠ "doc_id" →
  DocumentModel_init object_repr cls (<[k := v]> kwargs) =
  DocumentModel_init object_repr cls kwargs.
Proof.
  intros Hk Hid. unfold DocumentModel_init.
  destruct (meta_items _) as [items|e] eqn:Hitems; simpl; [|done].
  apply meta_items_Ok in Hitems as [_ ->]. cbn [doc_class].
  assert (k ∉ (map_to_list (cls_fields cls)).*1) as Hfresh.
  { intros ((n & f) & Heq & Hin)%list_elem_of_fmap.
    apply elem_of_map_to_list in Hin. simpl in Heq. congruence. }
  assert (∀ j, j ≠ k → <[k := v]> kwargs !! j = kwargs !! j) as Hagree
    by (intros j Hj; by rewrite lookup_insert_ne).
  pose proof (init_fields_irrelevant k _ Hfresh {| doc_class := cls; doc_dict := ∅ |}
                (<[k := v]> kwargs) kwargs Hagree) as Hloop.
  destruct (foldM init_field (_, <[k := v]> kwargs) _) as [st1|e1],
           (foldM init_field (_, kwargs) _) as [st2|e2]; try done.
  - destruct Hloop as [Hself Hkw].
    simpl. unfold encode_doc_id. rewrite (Hkw "doc_id") by done. by rewrite Hself.
  - simpl. by f_equal.
Qed.

Lemma land_63_lt (x : N) : (N.land x 63 < 64)%N.
Proof.
  change 63%N with (N.ones 6). rewrite N.land_ones. by apply N.mod_lt.
Qed.

Lemma lor_128_low (y : N) : (y < 64)%N → N.lor 128 y = (128 + y)%N.
Proof.
  intros H. destruct y as [|p]; [reflexivity|].
  do 6 (destruct p as [p|p|]; try reflexivity; try lia).
Qed.

Lemma continuation_byte_high (x : N) :
  (N_of_ascii (ascii_of_N (N.lor 128 (N.land x 63))) <? 128)%N = false.
Proof.
  pose proof (land_63_lt x). rewrite lor_128_low by done.
  rewrite N_ascii_embedding by lia. apply N.ltb_ge. lia.
Qed.

Lemma utf8_encode_char_is_ascii (c : N) :
  forallb (λ a, (N_of_ascii a <? 128)%N) (utf8_encode_char c) = (c <? 128)%N.
Proof.
  unfold utf8_encode_char.
  destruct (N.ltb_spec c 128) as [Hlt|Hge].
  - cbn [forallb]. rewrite N_ascii_embedding by lia.
    rewrite andb_true_r. by apply N.ltb_lt.
  - repeat case_match; cbn [forallb];
      rewrite continuation_byte_high, ?andb_false_r; reflexivity.
Qed.

Lemma is_ascii_utf8_encode (u : ustring) :
  is_ascii (utf8_encode u) = forallb (λ c, (c <? 128)%N) u.
Proof.
  unfold is_ascii, utf8_encode. rewrite list_ascii_of_string_of_list_ascii.
  induction u as [|c u IH]; [done|].
  cbn [mbind list_bind forallb]. rewrite forallb_app, utf8_encode_char_is_ascii.
  f_equal. exact IH.
Qed.

Lemma codes_utf8_encode (u : ustring) :
  forallb (λ c, (c <? 128)%N) u = true → codes (utf8_encode u) = u.
Proof.
  unfold codes, utf8_encode. rewrite list_ascii_of_string_of_list_ascii.
  induction u as [|c u IH]; [done|].
  cbn [forallb]. intros [Hc Hu]%andb_prop. apply N.ltb_lt in Hc.
  cbn [mbind list_bind]. unfold utf8_encode_char at 1.
  destruct (N.ltb_spec c 128) as [_|Hge]; [|lia].
  cbn [app]. rewrite fmap_cons, N_ascii_embedding by lia. f_equal. by apply IH.
Qed.

(** X8. Copying a [doc_id]: the id [__init__] computes from a unicode
    keyword is its UTF-8 bytes, [None] for the empty text. Given back as
    the [doc_id] keyword of another construction, an id made of ASCII only
    is kept as it is, an id with a character beyond ASCII raises
    [UnicodeDecodeError], and the absent id [None] becomes the four-byte id
    [None]. *)
Theorem doc_id_reencode (u : ustring) (kwargs kwargs' : gmap string Value) :
  kwargs !! "doc_id" = Some (VUnicode u) →
  let id := if decide (u = []) then VNone else VStr (utf8_encode u) in
  encode_doc_id object_repr kwargs = Ok id ∧
  encode_doc_id object_repr (<["doc_id" := id]> kwargs') =
    if decide (u = []) then Ok (VStr "None")
    else if forallb (λ c, (c <? 128)%N) u then Ok id
    else Raise UnicodeDecodeError.
Proof.
  intros Hkw id. subst id. rewrite !encode_doc_id_unfold, Hkw, lookup_insert_eq.
  split; [done|]. cbn [default from_option id].
  case_decide as Hu; [done|]. cbn [default from_option id unicode_].
  rewrite is_ascii_utf8_encode.
  destruct (forallb _ u) eqn:Hascii; [|done]. cbn [mbind result_bind].
  rewrite codes_utf8_encode by done. by rewrite decide_False.
Qed.

End ConstructionMore.

(** ** The index facade, once more *)

Section IndexMore.

Context {Remote Handle PutResult DeleteResult : Type}.
Variable api_Index : Value → result Handle.
Variable api_get_range :
  Handle → gmap string PyObject → Remote → result (list WireDoc) * Remote.
Variable api_put : Handle → list WireDoc → Remote → result PutResult * Remote.
Variable api_delete : Handle → list Value → Remote → result DeleteResult * Remote.
Variable construct_document : option DocClass → WireDoc → result Document.

Local Abbreviation World := (@World Remote PutResult DeleteResult).
Local Abbreviation Reply := (@Reply PutResult DeleteResult).
Local Abbreviation purge := (Index_purge api_get_range api_delete construct_document).
Local Abbreviation purge_run := (@purge_run PutResult DeleteResult).
Local Abbreviation purge_outcome := (@purge_outcome PutResult DeleteResult).
Local Abbreviation fetched_ids := (@fetched_ids PutResult DeleteResult).
Local Abbreviation deleted_ids := (@deleted_ids PutResult DeleteResult).
Local Abbreviation is_put := (@is_put PutResult DeleteResult).

(** X9. The invariant of an index: whatever value is given as the name,
    an [Index] that [__init__] returns stores that very name, holds the
    handle the search API made for it, and its name is a byte string or a
    unicode string that is not empty, does not start with [!] and has no
    space. *)
Theorem Index_init_sound (name : Value) (idx : Index) :
  Index_init api_Index name = Ok idx →
  Index_name idx = name ∧
  api_Index name = Ok (_index idx) ∧
  ((∃ s, name = VStr s ∧ ¬ bad_name s) ∨ (∃ u, name = VUnicode u ∧ ¬ bad_uname u)).
Proof.
  destruct name as [|b|z|s|u| |d].
  - done.
  - unfold Index_init. by destruct b.
  - unfold Index_init. cbn. by destruct (z =? 0)%Z.
  - rewrite Index_init_str.
    destruct (String.eqb s "") eqn:He; [done|].
    destruct (String.prefix "!" s || substringb " " s) eqn:Hp; [done|].
    destruct (api_Index (VStr s)) as [h|e]; simpl; [|done].
    intros [= <-]. repeat split. left. exists s. split; [done|].
    rewrite bad_name_spec. by rewrite He, Hp.
  - rewrite Index_init_unicode. destruct u as [|c u]; [done|].
    destruct (uprefix [33%N] (c :: u) || usubstringb [32%N] (c :: u)) eqn:Hp; [done|].
    destruct (api_Index (VUnicode (c :: u))) as [h|e]; simpl; [|done].
    intros [= <-]. repeat split. right. exists (c :: u). split; [done|].
    rewrite bad_uname_spec. by rewrite Hp.
  - done.
  - unfold Index_init. cbn. by destruct (d !! "startswith").
Qed.

(** X10. [put] converts the documents in the order of the batch and stops
    at the first one that cannot be converted: the exception of that
    document is the one raised, whatever follows it in the batch, and the
    remote index is not called. *)
Theorem put_first_failure (self : Index) (documents : Documents)
    (good rest : list Document) (d : Document) (e : exn) (w : World) :
  batch_of documents = good ++ d :: rest →
  (∀ g, g ∈ good → ∃ wd, wire_document_of g wd) →
  search_document d = Raise e →
  Index_put api_put self documents w = (Raise e, w).
Proof.
  intros Hbatch Hgood Hd. unfold Index_put, io_bind, io_lift.
  fold (batch_of documents). rewrite Hbatch. clear Hbatch.
  assert (mapM_result search_document (good ++ d :: rest) = Raise e) as ->; [|done].
  induction good as [|g good IH]; cbn [app mapM_result].
  - by rewrite Hd.
  - destruct (Hgood g) as [wd Hwd]; [constructor|].
    apply search_document_Ok in Hwd. rewrite Hwd. cbn [mbind result_bind].
    rewrite IH; [done|]. intros g' Hg'. apply Hgood. by constructor.
Qed.

(** X11. Batches compose: the wire documents sent for the concatenation of
    two batches are those of the first followed by those of the second, in
    one call; and the empty batch is still sent, as one call with no
    document. *)
Theorem put_batches (self : Index) (ds1 ds2 : list Document)
    (wires1 wires2 : list WireDoc) (w : World) :
  Forall2 wire_document_of ds1 wires1 →
  Forall2 wire_document_of ds2 wires2 →
  Index_put api_put self (Batch (ds1 ++ ds2)) w =
    after_call w (ReqPut (wires1 ++ wires2)) RepPut
      (api_put (_index self) (wires1 ++ wires2) (remote w)) ∧
  Index_put api_put self (Batch []) w =
    after_call w (ReqPut []) RepPut (api_put (_index self) [] (remote w)).
Proof.
  intros H1 H2. split.
  - unfold Index_put, io_bind, io_lift.
    assert (mapM_result search_document (ds1 ++ ds2) = Ok (wires1 ++ wires2)) as ->.
    { apply search_documents_Ok. by apply Forall2_app. }
    apply remote_call_unfold.
  - unfold Index_put, io_bind, io_lift. cbn [mapM_result]. apply remote_call_unfold.
Qed.

End IndexMore.

Section ConstructThenPut.

Variable object_repr : Value → ustring.

Lemma init_shape (cls : DocClass) (kwargs : gmap string Value) (self : Document) :
  cls_namespace cls !! "_meta" = Some VOptions →
  cls_fields cls !! "_meta" = None →
  cls_fields cls !! "doc_id" = None →
  DocumentModel_init object_repr cls kwargs = Ok self →
  doc_class self = cls ∧ meta_bound self ∧
  (∀ n f, cls_fields cls !! n = Some f →
     ∃ w, to_search_value f (default VNone (kwargs !! n)) = Ok w ∧
          doc_dict self !! n = Some w) ∧
  (∃ u, unicode_ object_repr (default (VStr "") (kwargs !! "doc_id")) = Ok u ∧
        doc_dict self !! "doc_id" =
        Some (if decide (u = []) then VNone else VStr (utf8_encode u))).
Proof.
  intros Hns Hmeta Hid. unfold DocumentModel_init.
  pose proof (fresh_instance_meta_bound cls Hns Hmeta) as Hb.
  set (self0 := {| doc_class := cls; doc_dict := ∅ |}) in *.
  unfold meta_items. rewrite (getattribute_meta _ Hb). simpl.
  pose proof (init_fields_spec (map_to_list (cls_fields cls)) self0 kwargs Hb
                Hmeta (NoDup_fst_map_to_list _)) as Hloop.
  destruct (foldM init_field (self0, kwargs) _) as [[self1 kwargs1]|e]; simpl;
    [|done].
  destruct Hloop as (Hcls & Hb1 & Hitems & Hrest).
  { intros n f Hin. by apply elem_of_map_to_list in Hin. }
  assert ("doc_id" ∉ (map_to_list (cls_fields cls)).*1) as Hfresh.
  { intros ((n & f) & Heq & Hin)%list_elem_of_fmap.
    apply elem_of_map_to_list in Hin. simpl in Heq. congruence. }
  destruct (Hrest _ Hfresh) as [_ Hkw]. rewrite encode_doc_id_unfold, Hkw.
  destruct (unicode_ object_repr _) as [u|e] eqn:Hu; simpl; [|done].
  rewrite setattr_unfold by done. rewrite Hcls. simpl. rewrite Hid. simpl.
  intros [= <-]. split; [done|]. split; [by apply meta_bound_setattr|]. split.
  - intros n f Hf. destruct (Hitems n f) as (w & Hw & Hd).
    { by apply elem_of_map_to_list. }
    exists w. split; [done|]. cbn. rewrite lookup_insert_ne; [done|congruence].
  - exists u. split; [done|]. cbn. by rewrite lookup_insert_eq.
Qed.

(** X12. Construction followed by [put]: for a class whose schema uses
    neither [_meta] nor [doc_id] as a field name, the wire document of a
    freshly built instance has the encoded [doc_id] keyword as its id
    ([None] when there is none), and its field named [n] holds the
    keyword value after three conversions,
    [f.to_search_value(f.to_python(f.to_search_value(v)))], [None]
    standing in for an [AttributeError] of [to_python]. *)
Theorem init_then_put (cls : DocClass) (kwargs : gmap string Value)
    (d : Document) (wd : WireDoc) :
  cls_namespace cls !! "_meta" = Some VOptions →
  cls_fields cls !! "_meta" = None →
  cls_fields cls !! "doc_id" = None →
  DocumentModel_init object_repr cls kwargs = Ok d →
  wire_document_of d wd →
  (∃ u, unicode_ object_repr (default (VStr "") (kwargs !! "doc_id")) = Ok u ∧
        wd_doc_id wd = if decide (u = []) then VNone else VStr (utf8_encode u)) ∧
  (∀ wf, wf ∈ wd_fields wd →
     ∃ f w a,
       cls_fields cls !! wf_name wf = Some f ∧
       to_search_value f (default VNone (kwargs !! wf_name wf)) = Ok w ∧
       (to_python f w = Ok a ∨
        (∃ attr, to_python f w = Raise (AttributeError attr)) ∧ a = VNone) ∧
       to_search_value f a = Ok (wf_value wf)).
Proof.
  intros Hns Hmeta Hid Hinit (_ & Hdocid & Hfields).
  destruct (init_shape cls kwargs d Hns Hmeta Hid Hinit)
    as (Hcls & [Hraw Hb] & Hstored & (u & Hu & Hdoc)).
  split.
  - exists u. split; [done|].
    rewrite getattribute_unfold in Hdocid by done.
    unfold object_getattribute in Hdocid. rewrite Hdoc in Hdocid.
    simpl in Hdocid. rewrite Hcls, Hid in Hdocid. congruence.
  - intros wf [i Hi]%list_elem_of_lookup.
    destruct (Forall2_lookup_r _ _ _ _ _ Hfields Hi)
      as ([n f] & Hin & Hname & _ & v & Hv & Hval).
    apply list_elem_of_lookup_2, elem_of_map_to_list in Hin.
    simpl in *. rewrite Hname. rewrite Hcls in Hin.
    destruct (Hstored n f Hin) as (w & Hw & Hd).
    unfold getattr_default_None in Hv.
    rewrite getattribute_unfold in Hv by done.
    unfold object_getattribute in Hv. rewrite Hd in Hv. simpl in Hv.
    rewrite Hcls, Hin in Hv.
    exists f, w, v. split; [done|]. split; [done|]. split; [|done].
    destruct (to_python f w) as [a|[]]; try by left.
    right. split; [by eexists|congruence].
Qed.

End ConstructThenPut.

(** ** [purge], once more *)

Section PurgeMore.

Context {Remote Handle PutResult DeleteResult : Type}.
Variable api_get_range :
  Handle → gmap string PyObject → Remote → result (list WireDoc) * Remote.
Variable api_delete : Handle → list Value → Remote → result DeleteResult * Remote.
Variable construct_document : option DocClass → WireDoc → result Document.

Local Abbreviation World := (@World Remote PutResult DeleteResult).
Local Abbreviation Reply := (@Reply PutResult DeleteResult).
Local Abbreviation purge := (Index_purge api_get_range api_delete construct_document).
Local Abbreviation purge_run := (@purge_run PutResult DeleteResult).
Local Abbreviation purge_outcome := (@purge_outcome PutResult DeleteResult).
Local Abbreviation fetched_ids := (@fetched_ids PutResult DeleteResult).
Local Abbreviation deleted_ids := (@deleted_ids PutResult DeleteResult).

Lemma deleted_ids_cons (call : Request * Reply) (log : list (Request * Reply)) :
  deleted_ids (call :: log) =
  match call.1 with ReqDelete ids => ids | _ => [] end ++ deleted_ids log.
Proof. reflexivity. Qed.

Lemma fetched_ids_cons (call : Request * Reply) (log : list (Request * Reply)) :
  fetched_ids (call :: log) =
  match call with
  | (ReqGetRange _, RepPage page) => wd_doc_id <$> page
  | _ => []
  end ++ fetched_ids log.
Proof. reflexivity. Qed.

Lemma purge_run_ids st path st' :
  purge_run st path st' →
  ∀ r tail, purge_outcome r st' tail →
  deleted_ids (path ++ tail) `prefix_of` pending_ids st ++ fetched_ids (path ++ tail) ∧
  (r = Ok (Some tt) →
     deleted_ids (path ++ tail) = pending_ids st ++ fetched_ids (path ++ tail)) ∧
  List.filter is_put (path ++ tail) = [].
Proof.
  induction 1 as [st|st call st' path st'' Hstep Hrun IH]; intros r tail Hout.
  - cbn [app]. destruct r as [[u|]|e]; cbn in Hout.
    + destruct Hout as [-> ->]. by repeat split.
    + destruct Hout as [[page ->] ->]. cbn. split; [|done].
      rewrite app_nil_r. apply prefix_nil.
    + destruct Hout as (req & Hreq & ->).
      destruct st as [c|page|]; cbn in Hreq; [| |done]; subst req; cbn.
      * split; [apply prefix_nil|done].
      * rewrite !app_nil_r. split; [done|]. by split.
  - destruct (IH r tail Hout) as (Hpre & Heq & Hput).
    rewrite <- app_comm_cons, deleted_ids_cons, fetched_ids_cons.
    destruct Hstep as [c|c page Hne|page d Hne];
      cbn [fst snd pending_ids List.filter is_put app] in *.
    + by repeat split.
    + by repeat split.
    + split; [by apply prefix_app|]. split; [|done].
      intros Hr. by rewrite (Heq Hr).
Qed.

(** X13. [purge] deletes what it fetched and nothing else: in every
    execution the ids it asks the remote index to delete, in order, are
    the first ids of the pages it was answered with, and all of them when
    it returns; it never calls [put]. *)
Theorem purge_deletes_what_it_fetched (fuel : nat) (self : Index) (w : World) :
  let run := purge fuel self w in
  ∃ new,
    calls run.2 = calls w ++ new ∧
    deleted_ids new `prefix_of` fetched_ids new ∧
    (run.1 = Ok (Some tt) → deleted_ids new = fetched_ids new) ∧
    List.filter is_put new = [].
Proof.
  intros run.
  destruct (purge_run_spec api_get_range api_delete construct_document fuel self w)
    as (path & st & tail & Hrun & Hcalls & Hout & _).
  fold run in Hcalls, Hout.
  exists (path ++ tail). split; [done|].
  exact (purge_run_ids _ _ _ Hrun _ _ Hout).
Qed.

Lemma next_page_kwargs_start_id (last_doc : PyObject) :
  next_page_kwargs last_doc !! "start_id" = Some last_doc.
Proof.
  unfold next_page_kwargs. rewrite lookup_insert_ne by done.
  apply lookup_insert_eq.
Qed.

(** X14. On a remote index whose range query does not take an object as
    [start_id] (it raises, as one that expects an id does), [purge] never
    gets past its first page: it returns only when the first page is
    empty, it never needs a second iteration, it makes at most three
    remote calls, and the ids it asks to delete are those of the first
    page and no others: no id beyond the first page is ever put to the
    remote index for deletion. *)
Theorem purge_rejected_cursor (self : Index) (fuel : nat) (w : World) :
  (∀ kwargs d s,
     kwargs !! "start_id" = Some (ObjValue (VRangeDocument d)) →
     ∃ e, (api_get_range (_index self) kwargs s).1 = Raise e) →
  let first := (api_get_range (_index self) first_page_kwargs (remote w)).1 in
  let run := purge (S fuel) self w in
  (run.1 = Ok (Some tt) ↔ first = Ok []) ∧
  run.1 ≠ Ok None ∧
  ∃ new,
    calls run.2 = calls w ++ new ∧
    (length new ≤ 3)%nat ∧
    deleted_ids new =
      match first with
      | Ok page => wd_doc_id <$> page
      | Raise _ => []
      end.
Proof.
  intros Hcursor first run. subst first run.
  unfold Index_purge, io_bind.
  rewrite (get_range_ids_only_unfold _ _ _ _ _ _ (fetch_kwargs_ids_only None)).
  cbn [fetch_kwargs]. cbn zeta.
  destruct (api_get_range (_index self) first_page_kwargs (remote w))
    as [[page|e] s1]; cbn [fst snd reply_of].
  2: { split; [done|]. split; [done|]. eexists [_]. cbn [calls].
       split; [done|]. split; [cbn; lia|done]. }
  rewrite purge_loop_unfold. destruct (last page) as [doc|] eqn:Hlast.
  2: { apply last_None in Hlast as ->. split; [done|]. split; [done|].
       eexists [_]. cbn [calls]. split; [done|]. split; [cbn; lia|done]. }
  assert (page ≠ []) as Hne by (by intros ->).
  cbn zeta. cbn [remote calls].
  destruct (api_delete (_index self) (wd_doc_id <$> page) s1) as [[r|e] s2];
    cbn [fst snd reply_of remote calls].
  2: { split; [split; [done|by intros [= ->]]|]. split; [done|].
       eexists [_; _]. rewrite <- app_assoc. cbn [app].
       split; [done|]. split; [cbn; lia|].
       cbn. by rewrite app_nil_r. }
  destruct (Hcursor (fetch_kwargs (Some doc)) {["doc_id" := wd_doc_id doc]} s2)
    as [e He]; [apply next_page_kwargs_start_id|].
  destruct (api_get_range (_index self) (fetch_kwargs (Some doc)) s2)
    as [[page'|e'] s3]; cbn [fst snd reply_of] in *; [done|].
  split; [split; [done|by intros [= ->]]|]. split; [done|].
  eexists [_; _; _]. rewrite <- !app_assoc. cbn [app].
  split; [done|]. split; [cbn; lia|].
  cbn. by rewrite app_nil_r.
Qed.

End PurgeMore.

(** * The further properties at work *)

(** [Note] keeps its plain attribute [kind], has its field [title] removed
    from the class, and an instance that never assigned [title] cannot
    read it. *)
Lemma metaclass_namespace_witness :
  cls_namespace Note !! "kind" = Some (VStr "note") ∧
  cls_namespace Note !! "title" = None ∧
  object_getattribute {| doc_class := Note; doc_dict := ∅ |} "title" =
    Raise (AttributeError "title").
Proof.
  destruct (metaclass_namespace true "Note" [DocBase DocumentModel]
              (<["title" := AttrField text_field]>
                 (<["kind" := AttrValue (VStr "note")]> ∅)))
    as (_ & Hplain & Hfield).
  split; [apply (Hplain "kind" (VStr "note")); [done|vm_compute; reflexivity]|].
  apply (Hfield "title" text_field); [done|vm_compute; reflexivity|].
  intros b ->%list_elem_of_singleton. vm_compute. reflexivity.
Defined.

(** A field of [flagged_a] that was deleted from the instance reads as
    [None] through [getattr]. *)
Lemma getattr_default_witness :
  getattribute {| doc_class := Flagged; doc_dict := ∅ |} "done" =
    Raise (AttributeError "done") ∧
  getattr_default_None {| doc_class := Flagged; doc_dict := ∅ |} "done" = Ok VNone ∧
  getattr_default_None flagged_a "done" = Ok (VBool true).
Proof.
  destruct (getattr_default {| doc_class := Flagged; doc_dict := ∅ |} "done")
    as [Hmissing _].
  destruct (getattr_default flagged_a "done") as [_ Hstored].
  split; [|split].
  - apply Hmissing; vm_compute; reflexivity.
  - apply Hmissing; vm_compute; reflexivity.
  - rewrite (Hstored boolean_field (VStr "1") flagged_a_meta_bound);
      vm_compute; reflexivity.
Defined.



(** [Flagged(done=True, doc_id=u'a', colour='red')]. *)
Lemma init_ignores_unknown_keyword_witness :
  cls_fields Flagged !! "colour" = None ∧ "colour" ≠ "doc_id" ∧
  DocumentModel_init plain_repr Flagged
    (<["colour" := VStr "red"]>
       (<["done" := VBool true]> {["doc_id" := VUnicode [97%N]]})) = Ok flagged_a.
Proof.
  assert (cls_fields Flagged !! "colour" = None) as Hk by (vm_compute; reflexivity).
  assert ("colour" ≠ "doc_id") as Hid by discriminate.
  split; [exact Hk|]. split; [exact Hid|].
  rewrite (init_ignores_unknown_keyword plain_repr Flagged _ "colour" (VStr "red") Hk Hid).
  exact Flagged_init.
Defined.

(** The id of [doc_id=u'\xe9'] is two bytes, and cannot be given back. *)
Lemma doc_id_reencode_witness :
  ({["doc_id" := VUnicode [233%N]]} : gmap string Value) !! "doc_id" =
    Some (VUnicode [233%N]) ∧
  encode_doc_id plain_repr {["doc_id" := VUnicode [233%N]]} =
    Ok (VStr (utf8_encode [233%N])) ∧
  String.length (utf8_encode [233%N]) = 2 ∧
  encode_doc_id plain_repr {["doc_id" := VStr (utf8_encode [233%N])]} =
    Raise UnicodeDecodeError.
Proof.
  assert (({["doc_id" := VUnicode [233%N]]} : gmap string Value) !! "doc_id" =
          Some (VUnicode [233%N])) as Hkw by reflexivity.
  destruct (doc_id_reencode plain_repr [233%N] _ ∅ Hkw) as [Hid Hback].
  split; [exact Hkw|]. split; [exact Hid|]. split; [reflexivity|]. exact Hback.
Defined.

(** The index made for [good-index]. *)
Lemma Index_init_sound_witness :
  Index_init toy_Index (VStr "good-index") =
    Ok {| Index_name := VStr "good-index"; _index := "good-index" |} ∧
  ¬ bad_name "good-index".
Proof.
  assert (Index_init toy_Index (VStr "good-index") =
          Ok {| Index_name := VStr "good-index"; _index := "good-index" |}) as Hinit
    by (vm_compute; reflexivity).
  split; [exact Hinit|].
  destruct (Index_init_sound toy_Index _ _ Hinit) as (_ & _ & [(s & [= <-] & Hs)|(u & [=] & _)]).
  exact Hs.
Defined.

(** A batch whose second document has a field outside [FIELD_MAP]. *)
Lemma put_first_failure_witness :
  batch_of (Batch [flagged_a; labelled_l; flagged_a]) =
    [flagged_a] ++ labelled_l :: [flagged_a] ∧
  search_document labelled_l = Raise KeyError ∧
  Index_put (DeleteResult := unit) toy_put toy_index
    (Batch [flagged_a; labelled_l; flagged_a]) (toy_world []) =
  (Raise KeyError, toy_world []).
Proof.
  assert (search_document labelled_l = Raise KeyError) as Hd
    by (vm_compute; reflexivity).
  split; [reflexivity|]. split; [exact Hd|].
  apply (put_first_failure toy_put toy_index _ [flagged_a] [flagged_a] labelled_l);
    [reflexivity| |exact Hd].
  intros g ->%list_elem_of_singleton. exists wire_flagged_a.
  apply search_document_Ok. vm_compute. reflexivity.
Defined.

(** [put] of [flagged_a] twice in one batch. *)
Lemma put_batches_witness :
  Forall2 wire_document_of [flagged_a] [wire_flagged_a] ∧
  Index_put (DeleteResult := unit) toy_put toy_index
    (Batch ([flagged_a] ++ [flagged_a])) (toy_world []) =
  (Ok [VStr "a"; VStr "a"],
   {| remote := ["a"; "a"];
      calls := [(ReqPut [wire_flagged_a; wire_flagged_a],
                 RepPut [VStr "a"; VStr "a"])] |}).
Proof.
  assert (Forall2 wire_document_of [flagged_a] [wire_flagged_a]) as Hwire.
  { apply search_documents_Ok. vm_compute. reflexivity. }
  split; [exact Hwire|].
  destruct (put_batches (DeleteResult := unit) toy_put toy_index _ _ _ _
              (toy_world []) Hwire Hwire) as [Hput _].
  by rewrite Hput.
Defined.

(** The wire document of [Flagged(done=True, doc_id=u'a')]. *)
Lemma init_then_put_witness :
  cls_namespace Flagged !! "_meta" = Some VOptions ∧
  cls_fields Flagged !! "_meta" = None ∧
  cls_fields Flagged !! "doc_id" = None ∧
  DocumentModel_init plain_repr Flagged
    (<["done" := VBool true]> {["doc_id" := VUnicode [97%N]]}) = Ok flagged_a ∧
  wire_document_of flagged_a wire_flagged_a ∧
  wd_doc_id wire_flagged_a = VStr "a".
Proof.
  assert (cls_namespace Flagged !! "_meta" = Some VOptions) as Hns
    by (vm_compute; reflexivity).
  assert (cls_fields Flagged !! "_meta" = None) as Hmeta
    by (vm_compute; reflexivity).
  assert (cls_fields Flagged !! "doc_id" = None) as Hid
    by (vm_compute; reflexivity).
  assert (wire_document_of flagged_a wire_flagged_a) as Hwire.
  { apply search_document_Ok. vm_compute. reflexivity. }
  split; [exact Hns|]. split; [exact Hmeta|]. split; [exact Hid|].
  split; [exact Flagged_init|]. split; [exact Hwire|].
  destruct (init_then_put plain_repr Flagged _ _ _ Hns Hmeta Hid Flagged_init Hwire)
    as [(u & Hu & ->) _].
  vm_compute in Hu. injection Hu as <-. vm_compute. reflexivity.
Defined.

(** [purge] of the index holding [a], [b] and [c], on a remote index that
    pages by two and takes ids as cursors: [a] and [b] are deleted, the
    re-query is refused, and [c] is left. *)
Lemma purge_rejected_cursor_witness :
  let run := Index_purge strict_get_range toy_delete toy_construct_document 3
               toy_index (toy_world ["a"; "b"; "c"]) in
  (∀ kwargs d s,
     kwargs !! "start_id" = Some (ObjValue (VRangeDocument d)) →
     ∃ e, (strict_get_range (_index toy_index) kwargs s).1 = Raise e) ∧
  run.1 = Raise TypeError ∧
  run.1 ≠ Ok (Some tt) ∧
  deleted_ids (calls run.2) = [VStr "a"; VStr "b"] ∧
  remote run.2 = ["c"].
Proof.
  intros run.
  assert (∀ kwargs d s,
     kwargs !! "start_id" = Some (ObjValue (VRangeDocument d)) →
     ∃ e, (strict_get_range (_index toy_index) kwargs s).1 = Raise e) as Hcursor.
  { intros kwargs d s Hk. exists TypeError. unfold strict_get_range. by rewrite Hk. }
  destruct (purge_rejected_cursor strict_get_range toy_delete toy_construct_document
              toy_index 2 (toy_world ["a"; "b"; "c"]) Hcursor)
    as (Hreturns & _ & new & Hcalls & _ & Hdeleted).
  split; [exact Hcursor|]. split; [vm_compute; reflexivity|].
  split.
  { intros Hrun. apply Hreturns in Hrun. vm_compute in Hrun. discriminate. }
  split; [|vm_compute; reflexivity].
  fold run in Hcalls. cbn [toy_world calls app] in Hcalls.
  rewrite Hcalls, Hdeleted. vm_compute. reflexivity.
Defined.

(** ** A shadowed [_meta], and reading after construction *)

(** X15. An instance whose own [_meta] attribute holds anything but the
    class metadata (and has no [fields] attribute) is out of use: every
    attribute read raises [AttributeError], every assignment raises
    [AttributeError] and stores nothing, and [getattr(d, n, None)] answers
    [None] for every name. *)
Theorem shadowed_meta (self : Document) (v : Value) (n : string) (x : Value) :
  doc_dict self !! "_meta" = Some v →
  v ≠ VOptions →
  py_getattr v "fields" = Raise (AttributeError "fields") →
  (∃ attr, getattribute self n = Raise (AttributeError attr)) ∧
  setattr self n x = Raise (AttributeError "fields") ∧
  getattr_default_None self n = Ok VNone.
Proof.
  intros Hv Hopt Hfields.
  assert (object_getattribute self "_meta" = Ok v) as Hraw
    by (unfold object_getattribute; by rewrite Hv).
  assert (∀ m, meta_field self v m = Raise (AttributeError "fields")) as Hmeta.
  { intros m. unfold meta_field. destruct v; try done; by rewrite Hfields. }
  assert (∀ m, ∃ attr, getattribute self m = Raise (AttributeError attr)) as Hget.
  { intros m. unfold getattribute.
    destruct (object_getattribute self m) as [val|e] eqn:Hm; simpl.
    - rewrite Hraw. simpl. rewrite Hmeta. by eexists.
    - unfold object_getattribute in Hm. repeat case_match; try done.
      injection Hm as <-. by eexists. }
  split; [apply Hget|]. split.
  - unfold setattr, getattribute. rewrite Hraw. simpl. by rewrite Hmeta.
  - unfold getattr_default_None. by destruct (Hget n) as [attr ->].
Qed.

Section ConstructThenRead.

Variable object_repr : Value → ustring.

(** X16. Construction followed by a read: for a class whose schema uses
    neither [_meta] nor [doc_id] as a field name, a freshly built instance
    reads, under each schema field, [f.to_python(f.to_search_value(v))] of
    the keyword value [v] ([None] when the keyword is missing), and under
    [doc_id] the encoded id, unconverted. *)
Theorem init_then_get (cls : DocClass) (kwargs : gmap string Value) (d : Document) :
  cls_namespace cls !! "_meta" = Some VOptions →
  cls_fields cls !! "_meta" = None →
  cls_fields cls !! "doc_id" = None →
  DocumentModel_init object_repr cls kwargs = Ok d →
  (∀ n f, cls_fields cls !! n = Some f →
     getattribute d n =
     to_search_value f (default VNone (kwargs !! n)) ≫= to_python f) ∧
  (∃ u, unicode_ object_repr (default (VStr "") (kwargs !! "doc_id")) = Ok u ∧
        getattribute d "doc_id" =
        Ok (if decide (u = []) then VNone else VStr (utf8_encode u))).
Proof.
  intros Hns Hmeta Hid Hinit.
  destruct (init_shape object_repr cls kwargs d Hns Hmeta Hid Hinit)
    as (Hcls & [Hraw Hb] & Hstored & (u & Hu & Hdoc)).
  split.
  - intros n f Hf. destruct (Hstored n f Hf) as (w & -> & Hd).
    rewrite getattribute_unfold by done.
    unfold object_getattribute. rewrite Hd. simpl. by rewrite Hcls, Hf.
  - exists u. split; [done|].
    rewrite getattribute_unfold by done.
    unfold object_getattribute. rewrite Hdoc. simpl. by rewrite Hcls, Hid.
Qed.

End ConstructThenRead.

(** [flagged_a] after [d._meta = 5]. *)
Lemma shadowed_meta_witness :
  doc_dict (object_setattr flagged_a "_meta" (VInt 5)) !! "_meta" = Some (VInt 5) ∧
  VInt 5 ≠ VOptions ∧
  py_getattr (VInt 5) "fields" = Raise (AttributeError "fields") ∧
  getattribute (object_setattr flagged_a "_meta" (VInt 5)) "done" =
    Raise (AttributeError "fields") ∧
  setattr (object_setattr flagged_a "_meta" (VInt 5)) "done" (VBool true) =
    Raise (AttributeError "fields").
Proof.
  assert (doc_dict (object_setattr flagged_a "_meta" (VInt 5)) !! "_meta"
          = Some (VInt 5)) as Hv by (vm_compute; reflexivity).
  assert (VInt 5 ≠ VOptions) as Hopt by discriminate.
  assert (py_getattr (VInt 5) "fields" = Raise (AttributeError "fields")) as Hf
    by reflexivity.
  destruct (shadowed_meta _ _ "done" (VBool true) Hv Hopt Hf) as (_ & Hset & _).
  split; [exact Hv|]. split; [exact Hopt|]. split; [exact Hf|].
  split; [vm_compute; reflexivity|exact Hset].
Defined.

(** What [Flagged(done=True, doc_id=u'a')] reads as. *)
Lemma init_then_get_witness :
  cls_namespace Flagged !! "_meta" = Some VOptions ∧
  cls_fields Flagged !! "_meta" = None ∧
  cls_fields Flagged !! "doc_id" = None ∧
  DocumentModel_init plain_repr Flagged
    (<["done" := VBool true]> {["doc_id" := VUnicode [97%N]]}) = Ok flagged_a ∧
  getattribute flagged_a "done" = Ok (VBool true) ∧
  getattribute flagged_a "title" = Ok VNone.
Proof.
  assert (cls_namespace Flagged !! "_meta" = Some VOptions) as Hns
    by (vm_compute; reflexivity).
  assert (cls_fields Flagged !! "_meta" = None) as Hmeta
    by (vm_compute; reflexivity).
  assert (cls_fields Flagged !! "doc_id" = None) as Hid
    by (vm_compute; reflexivity).
  destruct (init_then_get plain_repr Flagged _ _ Hns Hmeta Hid Flagged_init)
    as [Hread _].
  split; [exact Hns|]. split; [exact Hmeta|]. split; [exact Hid|].
  split; [exact Flagged_init|]. split.
  - rewrite (Hread "done" boolean_field); vm_compute; reflexivity.
  - rewrite (Hread "title" boolean_field); vm_compute; reflexivity.
Defined.
